(** * pyinseq: barcode demultiplexing and transposon-junction extraction

    A shallow embedding of [demultiplex.py], [pyinseq/pyinseq.py],
    [pyinseq/runner.py] and [pyinseq/utils.py].

    Data model.
    - A Python [str] is the list of its code points ([list N]); [u "ACGT"]
      writes a literal.
    - A Python [int] is a [Z].
    - An [OrderedDict] is an association list in insertion order whose keys
      are kept distinct by [od_set]; a plain [dict] that is only looked up
      and updated by key is a [gmap].
    - Appending to output files is a trace of [(file, record)] writes. *)

From Stdlib Require Import ZArith NArith Ascii String.
From stdpp Require Import base option list gmap.
From Stdlib Require Import Lia.

Local Open Scope N_scope.

(** ** Python strings *)

Abbreviation str := (list N).

(** [u "abc"] is the Python literal ['abc']. *)
Definition u (s : string) : str := N_of_ascii <$> list_ascii_of_string s.
Arguments u : simpl never.

Definition chr_space : N := 32.      (* ' ' *)
Definition chr_hash : N := 35.       (* '#' *)
Definition chr_dash : N := 45.       (* '-' *)
Definition chr_underscore : N := 95. (* '_' *)

(** [s.startswith(c)] for a one-character [c]. *)
Definition startswith_chr (c : N) (s : str) : bool :=
  match s with
  | [] => false
  | c' :: _ => c' =? c
  end.

(** [s[0:n]]: a slice never raises; it is shorter when [s] is. *)
Definition slice_to (n : nat) (s : str) : str := take n s.

(** ** utils.py *)

Module Utils.

(** [str.isspace] of one code point: the white space of the Unicode
    database (general category Zs, or bidirectional class WS, B or S). *)
Definition isspace (c : N) : bool :=
  ((9 <=? c) && (c <=? 13)) || ((28 <=? c) && (c <=? 32))
  || (c =? 133) || (c =? 160) || (c =? 5760)
  || ((8192 <=? c) && (c <=? 8202))
  || (c =? 8232) || (c =? 8233) || (c =? 8239) || (c =? 8287) || (c =? 12288).

Fixpoint lstrip (s : str) : str :=
  match s with
  | [] => []
  | c :: s' => if isspace c then lstrip s' else s
  end.

Definition rstrip (s : str) : str := reverse (lstrip (reverse s)).

(** [s.strip()] *)
Definition strip (s : str) : str := rstrip (lstrip s).

(** [s.replace(old, new)] for one-character [old] and [new]. *)
Definition replace_chr (old new : N) (s : str) : str :=
  (fun c => if c =? old then new else c) <$> s.

Section Filename.

  (** The alphanumeric code points of the Unicode database
      ([str.isalnum] of one character), which the repository takes from
      the Python runtime. *)
Variable isalnum : N -> bool.

  (** [\w] of a Unicode pattern: alphanumeric or the underscore. *)
Definition is_word (c : N) : bool := isalnum c || (c =? chr_underscore).

  (** The class [[^-\w]]. *)
Definition not_dash_word (c : N) : bool :=
    negb ((c =? chr_dash) || is_word c).

  (** [re.sub(r'(?u)[^-\w]', '', s)]: every character of the class is
      replaced by the empty string. *)
Definition re_sub_delete (s : str) : str :=
    List.filter (fun c => negb (not_dash_word c)) s.

  (** [re.sub(r'(?u)[^-\w]', '', sample_name.strip().replace(' ', '_'))] *)
Definition convert_to_filename (sample_name : str) : str :=
    re_sub_delete (replace_chr chr_space chr_underscore (strip sample_name)).

End Filename.

(** The alphanumeric code points below 128, used to run the functions on
    ASCII text. *)
Definition ascii_isalnum (c : N) : bool :=
  ((48 <=? c) && (c <=? 57)) || ((65 <=? c) && (c <=? 90))
  || ((97 <=? c) && (c <=? 122)).

End Utils.

(** ** Python objects shared by the modules *)

(** One parsed FASTQ record of [screed]. *)
Record Read := { name : str; sequence : str; quality : str }.

#[global] Instance Read_eq_dec : EqDecision Read.
Proof. solve_decision. Defined.

(** The per-sample dict: [{'name': ..., 'barcode': ...}] in
    [demultiplex.py], [{'barcode': ...}] in [runner.py]. *)
Record SampleEntry := { entry_name : option str; barcode : str }.

#[global] Instance SampleEntry_eq_dec : EqDecision SampleEntry.
Proof. solve_decision. Defined.

(** The objects that the loaders compare with [==]: a [str] and a dict
    are never equal. *)
Inductive pyval :=
| PStr (s : str)
| PDict (d : SampleEntry).

Definition py_eqb (a b : pyval) : bool :=
  match a, b with
  | PStr x, PStr y => bool_decide (x = y)
  | PDict x, PDict y => bool_decide (x = y)
  | _, _ => false
  end.

(** [x in l] for a list or a dict view [l]. *)
Definition py_in (x : pyval) (l : list pyval) : bool := existsb (py_eqb x) l.

(** *** OrderedDict as an association list *)

Abbreviation odict V := (list (str * V)).

Definition od_keys {V} (d : odict V) : list str := d.*1.
Definition od_values {V} (d : odict V) : list V := d.*2.

(** [k in d] *)
Definition od_mem {V} (k : str) (d : odict V) : bool :=
  existsb (fun k' => bool_decide (k' = k)) (od_keys d).

(** [d[k] = v]: an existing key keeps its position. *)
Fixpoint od_set {V} (k : str) (v : V) (d : odict V) : odict V :=
  match d with
  | [] => [(k, v)]
  | (k', v') :: d' =>
      if decide (k' = k) then (k, v) :: d' else (k', v') :: od_set k v d'
  end.

(** What a Python call can end in. *)
Inductive exn :=
| IndexError
| IOError (message : str).

Inductive outcome (A : Type) :=
| Returned (a : A)
| Exited (code : Z) (stdout : str)
| Raised (e : exn).
Arguments Returned {A} a.
Arguments Exited {A} code stdout.
Arguments Raised {A} e.

(** ** The sample table loaders *)

Module Loader.

Section Loader.

  (** The Unicode tables of the Python runtime. *)
Variable isalnum : N -> bool.
Variable upper : str -> str.

Let convert_to_filename := Utils.convert_to_filename isalnum.

  (** [sample_prep] of [demultiplex.py], over the rows that [csv.reader]
      yields for the file. *)
Fixpoint sample_prep_rows (rows : list (list str))
      (sampleDict : odict SampleEntry) : outcome (odict SampleEntry) :=
    match rows with
    | [] => Returned sampleDict
    | line :: rows' =>
        match line !! 0%nat with
        | None => Raised IndexError
        | Some col0 =>
            if startswith_chr chr_hash col0 then sample_prep_rows rows' sampleDict
            else
              match line !! 1%nat with
              | None => Raised IndexError
              | Some col1 =>
                  let new_sample := convert_to_filename col0 in
                  let new_barcode := upper col1 in
                  if od_mem new_sample sampleDict then
                    Exited 1 (u "Error: redundant sample identifier " ++ new_sample)
                  else if py_in (PStr new_barcode) (PDict <$> od_values sampleDict) then
                    Exited 1 (u "Error: redundant barcode " ++ new_barcode)
                  else
                    sample_prep_rows rows'
                      (od_set new_sample
                         {| entry_name := Some new_sample; barcode := new_barcode |}
                         sampleDict)
              end
        end
    end.

Definition sample_prep (rows : list (list str)) : outcome (odict SampleEntry) :=
    sample_prep_rows rows [].

  (** [tab_delimited_samples_to_dict] of [runner.py] (the function of the
      same name in [pyinseq.py] has the same body). *)
Fixpoint tab_delimited_rows (rows : list (list str))
      (samplesDict : odict SampleEntry) : outcome (odict SampleEntry) :=
    match rows with
    | [] => Returned samplesDict
    | line :: rows' =>
        match line !! 0%nat with
        | None => Raised IndexError
        | Some col0 =>
            if startswith_chr chr_hash col0 then tab_delimited_rows rows' samplesDict
            else
              let sample := convert_to_filename col0 in
              match line !! 1%nat with
              | None => Raised IndexError
              | Some col1 =>
                  let barcode := upper col1 in
                  if negb (od_mem sample samplesDict)
                     && negb (py_in (PStr barcode) (PDict <$> od_values samplesDict))
                  then
                    tab_delimited_rows rows'
                      (od_set sample {| entry_name := None; barcode := barcode |}
                         samplesDict)
                  else
                    Raised (IOError (u "Error: duplicate sample " ++ sample
                                     ++ u " barcode " ++ barcode))
              end
        end
    end.

Definition tab_delimited_samples_to_dict (rows : list (list str))
      : outcome (odict SampleEntry) :=
    tab_delimited_rows rows [].

End Loader.

(** [str.upper] on ASCII text. *)
Definition ascii_upper (s : str) : str :=
  (fun c => if (97 <=? c) && (c <=? 122) then c - 32 else c) <$> s.

End Loader.

(** ** demultiplex.py: the barcode classifier *)

Module Demultiplex.

Local Open Scope Z_scope.

Definition other : str := u "_other".

(** The effects of a run: the records appended to the output files, in
    order ([(sampleName, read)] is one [fo.write] to the file of
    [sampleName]), and, for every call of [writeReads], the buckets it
    was given. *)
Record World := {
  written : list (str * Read);
  flushes : list (gmap str (list Read));
}.

(** The local variables of [demultiplex_fastq] inside the loop. *)
Record State := {
  demultiplex_dict : gmap str (list Read);
  nreads : Z;
  world : World;
}.

(** [barcodes_dict]: one entry per sample, then [barcodes_dict['_other']
    = '_other']. *)
Definition build_barcodes_dict (samples_dict : odict SampleEntry) : odict str :=
  od_set other other
    (foldl (fun bd '(sample, e) => od_set sample (barcode e) bd) [] samples_dict).

(** [demultiplex_dict[barcode] = []] for every value of [barcodes_dict]. *)
Definition init_demultiplex_dict (barcodes_dict : odict str) : gmap str (list Read) :=
  foldl (fun dd '(_, bc) => <[bc := []]> dd) ∅ barcodes_dict.

(** [writeReads]: for every [(sampleName, barcode)] of [barcodes_dict]
    the reads of [demultiplex_dict[barcode]] are appended to the file of
    [sampleName]. [None] is an uncaught [KeyError]. *)
Definition write_bucket (dd : gmap str (list Read))
    (acc : option (list (str * Read))) (item : str * str)
    : option (list (str * Read)) :=
  w ← acc;
  bucket ← dd !! item.2;
  Some (w ++ ((fun fastqRead => (item.1, fastqRead)) <$> bucket)).

Definition writeReads (dd : gmap str (list Read)) (barcodes_dict : odict str)
    (w : World) : option World :=
  written' ← foldl (write_bucket dd) (Some (written w)) barcodes_dict;
  Some {| written := written'; flushes := flushes w ++ [dd] |}.

(** The [try]/[except] of the loop body: the read goes to the bucket of
    its first four characters, and to [_other] when that raises. *)
Definition classify (dd : gmap str (list Read)) (read : Read)
    : option (gmap str (list Read)) :=
  let barcode := slice_to 4 (sequence read) in
  match dd !! barcode with
  | Some bucket => Some (<[barcode := bucket ++ [read]]> dd)
  | None =>
      bucket ← dd !! other;
      Some (<[other := bucket ++ [read]]> dd)
  end.

(** One iteration of [for read in seqfile], flushing when [nreads] is a
    multiple of [every] ([1E6] in the source). *)
Definition step (every : Z) (barcodes_dict : odict str) (st : State) (read : Read)
    : option State :=
  dd ← classify (demultiplex_dict st) read;
  let nreads' := nreads st + 1 in
  if nreads' mod every =? 0 then
    w ← writeReads dd barcodes_dict (world st);
    Some {| demultiplex_dict := (fun _ => []) <$> dd; nreads := nreads'; world := w |}
  else
    Some {| demultiplex_dict := dd; nreads := nreads'; world := world st |}.

Fixpoint loop (every : Z) (barcodes_dict : odict str) (st : State)
    (seqfile : list Read) : option State :=
  match seqfile with
  | [] => Some st
  | read :: rest =>
      st' ← step every barcodes_dict st read;
      loop every barcodes_dict st' rest
  end.

Definition demultiplex_fastq_every (every : Z) (seqfile : list Read)
    (samples_dict : odict SampleEntry) : option State :=
  let barcodes_dict := build_barcodes_dict samples_dict in
  let st0 := {| demultiplex_dict := init_demultiplex_dict barcodes_dict;
                nreads := 0;
                world := {| written := []; flushes := [] |} |} in
  st ← loop every barcodes_dict st0 seqfile;
  w ← writeReads (demultiplex_dict st) barcodes_dict (world st);
  Some {| demultiplex_dict := demultiplex_dict st; nreads := nreads st; world := w |}.

(** [demultiplex_fastq]: the source flushes on [nreads % 1E6 == 0]. *)
Definition demultiplex_fastq := demultiplex_fastq_every 1000000.

(** The key of the bucket that receives [read]: its first four
    characters when they are a key of [demultiplex_dict] (a value of
    [barcodes_dict]), [_other] otherwise. *)
Definition bucket_of (barcodes_dict : odict str) (read : Read) : str :=
  let barcode := slice_to 4 (sequence read) in
  if bool_decide (barcode ∈ od_values barcodes_dict) then barcode else other.

(** The content of the output file of [sampleName]. *)
Definition file_of (sampleName : str) (w : list (str * Read)) : list Read :=
  (List.filter (fun x => bool_decide (x.1 = sampleName)) w).*2.

(** The number of reads held in the buckets. *)
Definition buffered (dd : gmap str (list Read)) : Z :=
  map_fold (fun _ bucket n => Z.of_nat (length bucket) + n) 0 dd.

(** *** trim_fastq *)

(** [s.find(pat)]: the lowest index at which [pat] occurs, [-1] if none. *)
Fixpoint find_from (pat s : str) (i : Z) : Z :=
  if bool_decide (take (length pat) s = pat) then i
  else match s with
       | [] => -1
       | _ :: s' => find_from pat s' (i + 1)
       end.

Definition find (pat s : str) : Z := find_from pat s 0.

(** [s[i:j]] for [0 <= i] and [0 <= j]. *)
Definition slice (i j : Z) (s : str) : str :=
  take (Z.to_nat j - Z.to_nat i)%nat (drop (Z.to_nat i) s).

(** [bLen = 4] is assigned in the body, whatever the argument. *)
Definition bLen : Z := 4.

(** [chromosomeSeq = read.sequence.find('TAACAGGTTG') + 2 - bLen] *)
Definition chromosomeSeq (read : Read) : Z :=
  find (u "TAACAGGTTG") (sequence read) + 2 - bLen.

(** The body of the loop of [trim_fastq]: the trimmed read when
    [chromosomeSeq in range(16, 18)], nothing otherwise. *)
Definition trim_read (read : Read) : option Read :=
  let cs := chromosomeSeq read in
  if (16 <=? cs) && (cs <? 18) then
    Some {| name := name read;
            sequence := slice bLen (cs + bLen) (sequence read);
            quality := slice bLen (cs + bLen) (quality read) |}
  else None.

(** The records that [trim_fastq] writes, in order: the kept reads are
    appended in batches, every 10^6 reads and once at the end, which
    leaves them in input order. *)
Definition trim_fastq (seqfile : list Read) : list Read := omap trim_read seqfile.

End Demultiplex.

(** ** pyinseq.py: the junction extractor *)

Module Extract.

Local Open Scope Z_scope.

(** [c] is in the character class [[cls]]. *)
Definition in_class (cls : str) (c : N) : bool := bool_decide (c ∈ cls).

(** [[cls]{n}]: exactly [n] characters of the class; the match and the
    rest of the subject. *)
Definition rep (cls : str) (n : nat) (s : str) : option (str * str) :=
  let m := take n s in
  if bool_decide (length m = n) && forallb (in_class cls) m
  then Some (m, drop n s) else None.

(** A literal; the rest of the subject. *)
Definition lit (l : str) (s : str) : option str :=
  if bool_decide (take (length l) s = l) then Some (drop (length l) s) else None.

(** [[ACGT]{k}(?:TA)) ACAGGTTG] after the first character of group 2. *)
Definition tail_with (k : nat) (s : str) : option str :=
  '(body, s1) ← rep (u "ACGT") k s;
  s2 ← lit (u "TA") s1;
  _ ← lit (u "ACAGGTTG") s2;
  Some (body ++ u "TA").

(** [re.search(pattern, s)] for
    [^([ACGT]{4})([NACGT][ACGT]{13,14}(?:TA))ACAGGTTG]: groups 1 and 2.
    The pattern is anchored at the start; the greedy [{13,14}] tries 14
    characters before 13. *)
Definition search (s : str) : option (str * str) :=
  '(g1, s1) ← rep (u "ACGT") 4 s;
  '(first, s2) ← rep (u "NACGT") 1 s1;
  match tail_with 14 s2 with
  | Some t => Some (g1, first ++ t)
  | None =>
      match tail_with 13 s2 with
      | Some t => Some (g1, first ++ t)
      | None => None
      end
  end.

(** [insertionDict.setdefault(barcode, {chrom_seq: 0})[chrom_seq] += 1],
    and [insertionDict[barcode][chrom_seq] = 1] on [KeyError]. *)
Definition count_insertion (insertionDict : gmap str (gmap str Z))
    (barcode chrom_seq : str) : gmap str (gmap str Z) :=
  match insertionDict !! barcode with
  | None => <[barcode := {[chrom_seq := 0 + 1]}]> insertionDict
  | Some d =>
      match d !! chrom_seq with
      | Some n => <[barcode := <[chrom_seq := n + 1]> d]> insertionDict
      | None => <[barcode := <[chrom_seq := 1]> d]> insertionDict
      end
  end.

(** The body of [for read in seqfile]: a read without a match raises
    inside the [try] and is passed over. *)
Definition extract_read (insertionDict : gmap str (gmap str Z)) (read : Read)
    : gmap str (gmap str Z) :=
  match search (sequence read) with
  | Some (barcode, chrom_seq) => count_insertion insertionDict barcode chrom_seq
  | None => insertionDict
  end.

Definition extract_chromosome_sequence (seqfile : list Read) : gmap str (gmap str Z) :=
  foldl extract_read ∅ seqfile.

(** The read is counted. *)
Definition accepted (read : Read) : bool :=
  bool_decide (is_Some (search (sequence read))).

(** The sum of the counts of one barcode, and of the whole dictionary. *)
Definition sum_counts (d : gmap str Z) : Z :=
  map_fold (fun _ n acc => n + acc) 0 d.

Definition total_count (insertionDict : gmap str (gmap str Z)) : Z :=
  map_fold (fun _ d acc => sum_counts d + acc) 0 insertionDict.

(** The count stored for [(barcode, chrom_seq)], if any. *)
Definition count_of (insertionDict : gmap str (gmap str Z))
    (barcode chrom_seq : str) : option Z :=
  d ← insertionDict !! barcode; d !! chrom_seq.

(** The shape of the groups of the pattern: four characters of [ACGT];
    one character of [NACGT], then characters of [ACGT] that end in
    [TA]. *)
Definition barcode_ok (bc : str) : bool :=
  bool_decide (length bc = 4%nat) && forallb (in_class (u "ACGT")) bc.

Definition segment_chars (seg : str) : bool :=
  match seg with
  | [] => false
  | first :: rest =>
      in_class (u "NACGT") first && forallb (in_class (u "ACGT")) rest
      && bool_decide (drop (length rest - 2) rest = u "TA")
  end.

Definition segment_ok (seg : str) : bool :=
  segment_chars seg
  && (bool_decide (length seg = 16%nat) || bool_decide (length seg = 17%nat)).

End Extract.

(** A read with the given sequence. *)
Definition mk_read (id seq : string) : Read :=
  {| name := u id; sequence := u seq; quality := replicate (length (u seq)) 73%N |}.

(** ** Invariants of the classifier loop *)

Local Open Scope Z_scope.

(** The keys of [demultiplex_dict] are the values of [barcodes_dict]. *)
Definition keys_ok (bd : odict str) (dd : gmap str (list Read)) : Prop :=
  forall k, is_Some (dd !! k) <-> k ∈ od_values bd.

(** What holds of the state after the reads [processed]. *)
Record loop_inv (every : Z) (bd : odict str) (processed : list Read)
    (st : Demultiplex.State) : Prop := {
  inv_keys : keys_ok bd (Demultiplex.demultiplex_dict st);
  inv_nreads : Demultiplex.nreads st = Z.of_nat (length processed);
  inv_files : forall sampleName bc,
    (sampleName, bc) ∈ bd ->
    Demultiplex.file_of sampleName (Demultiplex.written (Demultiplex.world st))
    ++ default [] (Demultiplex.demultiplex_dict st !! bc)
    = filter (fun r => Demultiplex.bucket_of bd r = bc) processed;
  inv_flushes :
    Demultiplex.buffered <$> Demultiplex.flushes (Demultiplex.world st)
    = replicate (Z.to_nat (Z.of_nat (length processed) / every)) every;
  inv_buffered :
    Demultiplex.buffered (Demultiplex.demultiplex_dict st)
    = Z.of_nat (length processed) mod every;
}.

(** The buckets that hold the reads of [batch] and nothing else: under
    every value of [barcodes_dict] the reads of [batch] that go to that
    bucket, in input order, and no other key. *)
Definition holds_batch (bd : odict str) (dd : gmap str (list Read))
    (batch : list Read) : Prop :=
  forall bc,
    dd !! bc = if bool_decide (bc ∈ od_values bd)
               then Some (filter (fun r => Demultiplex.bucket_of bd r = bc) batch)
               else None.

(** The records that the two loops of [writeReads] append when every
    bucket is there: for every [(sampleName, barcode)] of [barcodes_dict],
    in order, every read of [demultiplex_dict[barcode]] to the file of
    [sampleName]. *)
Definition flush_records (bd : odict str) (dd : gmap str (list Read))
    : list (str * Read) :=
  flat_map (fun item : str * str =>
              (fun r => (item.1, r)) <$> default [] (dd !! item.2)) bd.

(** What holds of the state after the reads [processed], which are the
    full [batches] followed by the reads [tail] that are still in the
    buckets: every call of [writeReads] so far was given the buckets of
    one batch, and the files hold what these calls appended. *)
Record flush_inv (every : Z) (bd : odict str) (processed : list Read)
    (st : Demultiplex.State) (batches : list (list Read)) (tail : list Read)
    : Prop := {
  finv_split : processed = concat batches ++ tail;
  finv_full : Forall (fun batch => Z.of_nat (length batch) = every) batches;
  finv_tail : Z.of_nat (length tail) = Z.of_nat (length processed) mod every;
  finv_nreads : Demultiplex.nreads st = Z.of_nat (length processed);
  finv_dict : holds_batch bd (Demultiplex.demultiplex_dict st) tail;
  finv_flushes :
    Forall2 (holds_batch bd) (Demultiplex.flushes (Demultiplex.world st)) batches;
  finv_written :
    Demultiplex.written (Demultiplex.world st)
    = flat_map (flush_records bd) (Demultiplex.flushes (Demultiplex.world st));
}.

(** ** Further definitions *)

(** *** The rows of a sample table *)

(** The row is a comment line: [line[0].startswith('#')]. *)
Definition is_comment (line : list str) : bool :=
  match line !! 0%nat with
  | Some col0 => startswith_chr chr_hash col0
  | None => false
  end.

(** The rows that are not comment lines, in file order. *)
Definition data_rows (rows : list (list str)) : list (list str) :=
  List.filter (fun line => negb (is_comment line)) rows.

(** The entry that [sample_prep] stores for a row with two columns. *)
Definition row_entry (isalnum : N -> bool) (upper : str -> str) (line : list str)
    : str * SampleEntry :=
  let new_sample := Utils.convert_to_filename isalnum (default [] (line !! 0%nat)) in
  (new_sample,
   {| entry_name := Some new_sample;
      barcode := upper (default [] (line !! 1%nat)) |}).

(** The sample dict of [sample_prep] without its ['name'] fields, which is
    the shape that [tab_delimited_samples_to_dict] builds. *)
Definition without_names (d : odict SampleEntry) : odict SampleEntry :=
  (fun kv : str * SampleEntry =>
     (kv.1, {| entry_name := None; barcode := barcode kv.2 |})) <$> d.

(** *** The FASTQ record of [writeReads] and [writeTrimmedReads]:
    ['@{n}\n{s}\n+\n{q}\n'.format(n = fastqRead.name, s =
    fastqRead.sequence, q = fastqRead.quality)]. *)
Definition chr_newline : N := 10.
Definition chr_at : N := 64.
Definition chr_plus : N := 43.

Definition fastq_record (fastqRead : Read) : str :=
  [chr_at] ++ name fastqRead ++ [chr_newline]
  ++ sequence fastqRead ++ [chr_newline; chr_plus; chr_newline]
  ++ quality fastqRead ++ [chr_newline].

(** No field of the read holds a line feed, as in every parsed record. *)
Definition newline_free (fastqRead : Read) : Prop :=
  (chr_newline ∉ name fastqRead) /\ (chr_newline ∉ sequence fastqRead)
  /\ (chr_newline ∉ quality fastqRead).

(** The text that the appended records make. *)
Definition fastq_text (reads : list Read) : str := flat_map fastq_record reads.

(** *** runner.py: [Settings.set_tn_ends] *)

(** [for base in tn_end: if base not in 'ACGT': raise AttributeError]:
    [false] when the loop raises. *)
Fixpoint check_tn_end (tn_end : str) : bool :=
  match tn_end with
  | [] => true
  | base :: rest =>
      if negb (bool_decide (base ∈ u "ACGT")) then false else check_tn_end rest
  end.

(** The attributes that [set_tn_ends] assigns. *)
Record TnEnds := { TnL : str; TnR : str; same_tn_ends : bool }.

(** [set_tn_ends]: [None] is the [AttributeError]. *)
Definition set_tn_ends (tnl tnr : str) : option TnEnds :=
  if check_tn_end tnl then
    if check_tn_end tnr then
      Some {| TnL := tnl; TnR := tnr; same_tn_ends := bool_decide (tnl = tnr) |}
    else None
  else None.

(** * Properties *)

(** ** utils.py: the filename conversion *)

Section FilenameFacts.

Variable isalnum : N -> bool.

  (** No alphanumeric character is white space (their Unicode
      categories are disjoint). *)
Hypothesis alnum_not_space : forall c, isalnum c = true -> Utils.isspace c = false.

Let kept (c : N) : bool := negb (Utils.not_dash_word isalnum c).

Lemma kept_not_space c : kept c = true -> Utils.isspace c = false.
  Proof.
    unfold kept, Utils.not_dash_word, Utils.is_word.
    rewrite negb_involutive, !orb_true_iff, !N.eqb_eq.
    intros [-> | [H | ->]]; [reflexivity | by apply alnum_not_space | reflexivity].
  Qed.

Lemma kept_not_blank c : kept c = true -> c <> chr_space.
  Proof.
    intros Hk ->. apply kept_not_space in Hk. discriminate Hk.
  Qed.

Lemma re_sub_delete_kept s : Forall (fun c => kept c = true) (Utils.re_sub_delete isalnum s).
  Proof.
    unfold Utils.re_sub_delete. apply List.Forall_forall.
    intros c Hc. by apply List.filter_In in Hc as [_ Hc].
  Qed.

Lemma lstrip_kept s : Forall (fun c => kept c = true) s -> Utils.lstrip s = s.
  Proof.
    intros [|c s' Hc _]; [reflexivity|].
    simpl. by rewrite (kept_not_space c Hc).
  Qed.

Lemma strip_kept s : Forall (fun c => kept c = true) s -> Utils.strip s = s.
  Proof.
    intros Hs. unfold Utils.strip, Utils.rstrip.
    rewrite (lstrip_kept s Hs), lstrip_kept.
    - apply reverse_involutive.
    - by apply Forall_reverse.
  Qed.

Lemma replace_kept s :
    Forall (fun c => kept c = true) s ->
    Utils.replace_chr chr_space chr_underscore s = s.
  Proof.
    induction 1 as [|c s' Hc _ IH]; [reflexivity|].
    unfold Utils.replace_chr in *. rewrite fmap_cons, IH. f_equal.
    destruct (N.eqb_spec c chr_space) as [E|_]; [|reflexivity].
    by apply kept_not_blank in Hc.
  Qed.

Lemma re_sub_delete_id s :
    Forall (fun c => kept c = true) s -> Utils.re_sub_delete isalnum s = s.
  Proof.
    induction 1 as [|c s' Hc _ IH]; [reflexivity|].
    unfold Utils.re_sub_delete in *. simpl. fold (kept c). by rewrite Hc, IH.
  Qed.

  (** C10: the filename conversion is idempotent: converting a converted
      name gives the same name again, for every string. *)
Theorem convert_to_filename_idempotent (s : str) :
    Utils.convert_to_filename isalnum (Utils.convert_to_filename isalnum s)
    = Utils.convert_to_filename isalnum s.
  Proof.
    unfold Utils.convert_to_filename at 1.
    pose proof (re_sub_delete_kept
      (Utils.replace_chr chr_space chr_underscore (Utils.strip s))) as Hk.
    fold (Utils.convert_to_filename isalnum s) in Hk.
    by rewrite (strip_kept _ Hk), (replace_kept _ Hk), (re_sub_delete_id _ Hk).
  Qed.

End FilenameFacts.

Lemma ascii_alnum_not_space c :
  Utils.ascii_isalnum c = true -> Utils.isspace c = false.
Proof.
  unfold Utils.ascii_isalnum, Utils.isspace. intros H.
  apply not_true_is_false. intros H'.
  repeat first [ rewrite orb_true_iff in H | rewrite andb_true_iff in H
               | rewrite N.leb_le in H ].
  repeat first [ rewrite orb_true_iff in H' | rewrite andb_true_iff in H'
               | rewrite N.leb_le in H' | rewrite N.eqb_eq in H' ].
  lia.
Qed.

Lemma convert_to_filename_idempotent_witness :
  (forall c, Utils.ascii_isalnum c = true -> Utils.isspace c = false)
  /\ Utils.convert_to_filename Utils.ascii_isalnum
       (Utils.convert_to_filename Utils.ascii_isalnum (u "  my sample #1.txt "))
     = Utils.convert_to_filename Utils.ascii_isalnum (u "  my sample #1.txt ").
Proof.
  split.
  - exact ascii_alnum_not_space.
  - exact (convert_to_filename_idempotent Utils.ascii_isalnum ascii_alnum_not_space
             (u "  my sample #1.txt ")).
Defined.

Example convert_to_filename_ex1 :
  Utils.convert_to_filename Utils.ascii_isalnum (u "  my sample #1.txt ")
  = u "my_sample_1txt".
Proof. reflexivity. Qed.

Example convert_to_filename_ex2 :
  Utils.convert_to_filename Utils.ascii_isalnum (u "E001-01 a") = u "E001-01_a".
Proof. reflexivity. Qed.

(** ** The sample table loaders *)

(** A barcode is a [str] and the values of the sample dict are dicts, so
    the membership test on [values()] never holds. *)
Lemma barcode_never_in_values (new_barcode : str) (sampleDict : odict SampleEntry) :
  py_in (PStr new_barcode) (PDict <$> od_values sampleDict) = false.
Proof.
  unfold py_in. induction (od_values sampleDict) as [|e l IH]; [reflexivity|].
  rewrite fmap_cons. simpl. exact IH.
Qed.

(** C1: on the table with the lines [sample1<TAB>ACGT] and
    [sample2<TAB>acgt], where one normalized barcode stands under two
    different normalized names, both loaders return the mapping of the
    two samples and report nothing. *)
Theorem loaders_accept_repeated_barcode :
  let rows := [[u "sample1"; u "ACGT"]; [u "sample2"; u "acgt"]] in
  Loader.sample_prep Utils.ascii_isalnum Loader.ascii_upper rows
  = Returned
      [(u "sample1", {| entry_name := Some (u "sample1"); barcode := u "ACGT" |});
       (u "sample2", {| entry_name := Some (u "sample2"); barcode := u "ACGT" |})]
  /\ Loader.tab_delimited_samples_to_dict Utils.ascii_isalnum Loader.ascii_upper rows
     = Returned
         [(u "sample1", {| entry_name := None; barcode := u "ACGT" |});
          (u "sample2", {| entry_name := None; barcode := u "ACGT" |})].
Proof. split; vm_compute; reflexivity. Qed.

(** A repeated normalized name is reported by both loaders. *)
Example loaders_report_repeated_name :
  let rows := [[u "sample 1"; u "ACGT"]; [u "sample_1"; u "TTTT"]] in
  Loader.sample_prep Utils.ascii_isalnum Loader.ascii_upper rows
  = Exited 1 (u "Error: redundant sample identifier sample_1")
  /\ Loader.tab_delimited_samples_to_dict Utils.ascii_isalnum Loader.ascii_upper rows
     = Raised (IOError (u "Error: duplicate sample sample_1 barcode TTTT")).
Proof. split; vm_compute; reflexivity. Qed.

Local Open Scope Z_scope.

(** ** The junction pattern *)

Lemma rep_app cls n m s :
  length m = n -> forallb (Extract.in_class cls) m = true ->
  Extract.rep cls n (m ++ s) = Some (m, s).
Proof.
  intros Hn Hm. unfold Extract.rep. subst n.
  rewrite take_app_length, drop_app_length, Hm, bool_decide_true by done. done.
Qed.

Lemma rep_Some cls n s m s' :
  Extract.rep cls n s = Some (m, s') ->
  s = m ++ s' /\ length m = n /\ forallb (Extract.in_class cls) m = true.
Proof.
  unfold Extract.rep. case_bool_decide as Hl; simpl; [|done].
  destruct (forallb _ _) eqn:Hf; [|done].
  intros [= <- <-]. by rewrite take_drop.
Qed.

Lemma rep_None_class cls n s :
  forallb (Extract.in_class cls) (take n s) = false -> Extract.rep cls n s = None.
Proof.
  intros Hf. unfold Extract.rep. rewrite Hf. by rewrite andb_false_r.
Qed.

Lemma lit_app l s : Extract.lit l (l ++ s) = Some s.
Proof.
  unfold Extract.lit.
  by rewrite take_app_length, drop_app_length, bool_decide_true.
Qed.

Lemma lit_Some l s s' : Extract.lit l s = Some s' -> s = l ++ s'.
Proof.
  unfold Extract.lit. case_bool_decide as Hl; [|done].
  intros [= <-]. rewrite <- (take_drop (length l) s) at 1. by rewrite Hl.
Qed.

Lemma tail_with_app k body rest :
  length body = k -> forallb (Extract.in_class (u "ACGT")) body = true ->
  Extract.tail_with k (body ++ u "TA" ++ u "ACAGGTTG" ++ rest) = Some (body ++ u "TA").
Proof.
  intros Hk Hb. unfold Extract.tail_with.
  rewrite (rep_app _ _ _ _ Hk Hb). simpl.
  by rewrite ?lit_app.
Qed.

Lemma tail_with_Some k s t :
  Extract.tail_with k s = Some t ->
  exists body rest,
    t = body ++ u "TA" /\ s = body ++ u "TA" ++ u "ACAGGTTG" ++ rest
    /\ length body = k /\ forallb (Extract.in_class (u "ACGT")) body = true.
Proof.
  unfold Extract.tail_with.
  destruct (Extract.rep _ k s) as [[body s1]|] eqn:Hr; simpl; [|done].
  destruct (Extract.lit (u "TA") s1) as [s2|] eqn:H1; simpl; [|done].
  destruct (Extract.lit (u "ACAGGTTG") s2) as [s3|] eqn:H2; simpl; [|done].
  intros [= <-]. apply rep_Some in Hr as (-> & Hk & Hb).
  apply lit_Some in H1 as ->. apply lit_Some in H2 as ->.
  by exists body, s3.
Qed.

Lemma u_TA : u "TA" = [84; 65]%N.
Proof. reflexivity. Qed.

Lemma u_anchor : u "ACAGGTTG" = [65; 67; 65; 71; 71; 84; 84; 71]%N.
Proof. reflexivity. Qed.

(** A segment of the right characters is one character of [NACGT], a
    body of [ACGT] and [TA]. *)
Lemma segment_chars_split seg :
  Extract.segment_chars seg = true ->
  exists first body,
    seg = first :: body ++ u "TA"
    /\ Extract.in_class (u "NACGT") first = true
    /\ forallb (Extract.in_class (u "ACGT")) body = true
    /\ length seg = (length body + 3)%nat.
Proof.
  destruct seg as [|first rest]; [done|]. simpl.
  rewrite !andb_true_iff, bool_decide_eq_true. intros [[Hf Hr] Ht].
  exists first, (take (length rest - 2) rest).
  assert (length rest >= 2)%nat as Hlen.
  { destruct rest as [|? [|? ?]]; simpl in *; try done; lia. }
  rewrite <- Ht, take_drop. repeat split; try done.
  - rewrite <- (take_drop (length rest - 2) rest), forallb_app in Hr.
    by apply andb_true_iff in Hr as [? _].
  - rewrite length_take. lia.
Qed.

Lemma search_complete bc seg rest :
  Extract.barcode_ok bc = true -> Extract.segment_ok seg = true ->
  Extract.search (bc ++ seg ++ u "ACAGGTTG" ++ rest) = Some (bc, seg).
Proof.
  unfold Extract.barcode_ok, Extract.segment_ok.
  rewrite !andb_true_iff, orb_true_iff, !bool_decide_eq_true.
  intros [Hl Hbc] [Hseg Hlen].
  apply segment_chars_split in Hseg as (first & body & -> & Hfirst & Hbody & Hlb).
  unfold Extract.search. rewrite (rep_app _ _ _ _ Hl Hbc). cbn.
  change (first :: (body ++ u "TA") ++ u "ACAGGTTG" ++ rest)
    with ([first] ++ (body ++ u "TA") ++ u "ACAGGTTG" ++ rest).
  rewrite (rep_app _ 1 [first]); [|done|by simpl; rewrite Hfirst].
  cbn. rewrite <- (assoc_L (++) body).
  destruct Hlen as [Hlen|Hlen].
  - (* thirteen characters: the attempt with fourteen stops at [TA] *)
    assert (length body = 13%nat) as Hb13 by lia.
    assert (Extract.tail_with 14 (body ++ u "TA" ++ u "ACAGGTTG" ++ rest) = None) as ->.
    { unfold Extract.tail_with.
      change (body ++ u "TA" ++ u "ACAGGTTG" ++ rest)
        with (body ++ [84%N] ++ (65%N :: u "ACAGGTTG" ++ rest)).
      rewrite (assoc_L (++) body), (rep_app _ 14 (body ++ [84%N])).
      - reflexivity.
      - rewrite length_app. simpl. lia.
      - rewrite forallb_app, Hbody. reflexivity. }
    by rewrite (tail_with_app 13 body rest Hb13 Hbody).
  - assert (length body = 14%nat) as Hb14 by lia.
    by rewrite (tail_with_app 14 body rest Hb14 Hbody).
Qed.

Lemma segment_chars_intro first body :
  Extract.in_class (u "NACGT") first = true ->
  forallb (Extract.in_class (u "ACGT")) body = true ->
  Extract.segment_chars (first :: body ++ u "TA") = true.
Proof.
  intros Hf Hb. simpl. rewrite Hf, forallb_app, Hb. simpl.
  apply bool_decide_eq_true.
  rewrite length_app. replace (length body + length (u "TA") - 2)%nat with (length body).
  - by rewrite drop_app_length.
  - change (length (u "TA")) with 2%nat. lia.
Qed.

Lemma search_Some s bc seg :
  Extract.search s = Some (bc, seg) ->
  Extract.barcode_ok bc = true /\ Extract.segment_ok seg = true
  /\ exists rest, s = bc ++ seg ++ u "ACAGGTTG" ++ rest.
Proof.
  unfold Extract.search.
  destruct (Extract.rep _ 4 s) as [[g1 s1]|] eqn:H1; [|done]. cbn.
  destruct (Extract.rep _ 1 s1) as [[first s2]|] eqn:H2; [|done]. cbn.
  apply rep_Some in H1 as (-> & Hl1 & Hc1).
  apply rep_Some in H2 as (-> & Hl2 & Hc2).
  destruct first as [|c [|? ?]]; try done.
  simpl in Hc2. rewrite andb_true_r in Hc2.
  assert (forall k t, (k = 13 \/ k = 14)%nat -> Extract.tail_with k s2 = Some t ->
            Some (g1, [c] ++ t) = Some (bc, seg) ->
            Extract.barcode_ok bc = true /\ Extract.segment_ok seg = true
            /\ exists rest, g1 ++ [c] ++ s2 = bc ++ seg ++ u "ACAGGTTG" ++ rest) as Hk.
  { intros k t Hk Ht [= <- <-].
    apply tail_with_Some in Ht as (body & rest & -> & -> & Hlb & Hb).
    unfold Extract.barcode_ok, Extract.segment_ok.
    rewrite Hc1, (bool_decide_true _ Hl1).
    change ([c] ++ body ++ u "TA") with (c :: body ++ u "TA").
    rewrite (segment_chars_intro c body Hc2 Hb). simpl.
    repeat split.
    - rewrite orb_true_iff, !bool_decide_eq_true, length_app.
      change (length (u "TA")) with 2%nat. lia.
    - exists rest. by rewrite <- !(assoc_L (++)). }
  destruct (Extract.tail_with 14 s2) as [t|] eqn:H14.
  { apply (Hk 14%nat t); auto. }
  destruct (Extract.tail_with 13 s2) as [t|] eqn:H13; [|done].
  apply (Hk 13%nat t); auto.
Qed.

Lemma search_barcode_invalid s :
  forallb (Extract.in_class (u "ACGT")) (take 4 s) = false -> Extract.search s = None.
Proof.
  intros H. unfold Extract.search. by rewrite (rep_None_class _ _ _ H).
Qed.

(** Destructs a list whose length is known into its elements. *)
Ltac explode l :=
  repeat (destruct l as [|? l]; simpl in *; try lia).

Lemma search_reject_15_18 bc seg rest :
  length bc = 4%nat -> Extract.segment_chars seg = true ->
  (length seg = 15 \/ length seg = 18)%nat ->
  Extract.search (bc ++ seg ++ u "ACAGGTTG" ++ rest) = None.
Proof.
  intros Hbc Hseg Hlen.
  destruct (Extract.search _) as [[bc' seg']|] eqn:Hs; [exfalso|done].
  apply search_Some in Hs as (Hbc' & Hseg' & rest' & Heq).
  apply andb_true_iff in Hbc' as [Hbc' _]. apply bool_decide_eq_true in Hbc'.
  apply andb_true_iff in Hseg' as [Hseg' Hlen'].
  rewrite orb_true_iff, !bool_decide_eq_true in Hlen'.
  apply app_inj_1 in Heq as [<- Heq]; [|congruence].
  apply segment_chars_split in Hseg as (f & b & -> & _ & _ & Hb).
  apply segment_chars_split in Hseg' as (f' & b' & -> & _ & _ & Hb').
  rewrite u_TA, u_anchor in *.
  clear Hbc Hbc' bc.
  assert (length b = 12 \/ length b = 15)%nat as Hcase by lia.
  assert (length b' = 13 \/ length b' = 14)%nat as Hcase' by lia.
  clear Hb Hb' Hlen Hlen'.
  destruct Hcase as [Hl|Hl], Hcase' as [Hl'|Hl'];
    explode b; explode b'; simplify_eq/=.
Qed.

(** ** Counting insertions *)

Lemma count_of_insertion_same d bc seg :
  Extract.count_of (Extract.count_insertion d bc seg) bc seg
  = Some (default 0 (Extract.count_of d bc seg) + 1).
Proof.
  unfold Extract.count_of, Extract.count_insertion.
  destruct (d !! bc) as [inner|] eqn:Hd; simpl.
  - destruct (inner !! seg) as [n|] eqn:Hi; rewrite lookup_insert_eq; simpl;
      by rewrite lookup_insert_eq.
  - rewrite lookup_insert_eq. simpl. by rewrite lookup_singleton_eq.
Qed.

Lemma count_of_insertion_other d bc seg bc' seg' :
  (bc', seg') <> (bc, seg) ->
  Extract.count_of (Extract.count_insertion d bc seg) bc' seg'
  = Extract.count_of d bc' seg'.
Proof.
  intros Hne. unfold Extract.count_of, Extract.count_insertion.
  destruct (decide (bc' = bc)) as [->|Hbc].
  - assert (seg' <> seg) as Hseg by congruence.
    destruct (d !! bc) as [inner|] eqn:Hd; simpl.
    + destruct (inner !! seg) as [n|] eqn:Hi; rewrite lookup_insert_eq; simpl;
        by rewrite lookup_insert_ne.
    + rewrite lookup_insert_eq. simpl. by rewrite lookup_singleton_ne.
  - destruct (d !! bc) as [inner|]; [destruct (inner !! seg)|];
      by rewrite lookup_insert_ne.
Qed.

Section Sums.

Context {V : Type} (f : V -> Z).

Let sum (m : gmap str V) : Z := map_fold (fun _ v acc => f v + acc) 0 m.

Lemma sum_insert_fresh m i x : m !! i = None -> sum (<[i:=x]> m) = f x + sum m.
  Proof.
    intros Hi. unfold sum. rewrite map_fold_insert_L; [done| |done].
    intros. lia.
  Qed.

Lemma sum_insert_update m i x y :
    m !! i = Some y -> sum (<[i:=x]> m) = f x - f y + sum m.
  Proof.
    intros Hi. rewrite <- insert_delete_eq.
    rewrite sum_insert_fresh by apply lookup_delete_eq.
    unfold sum at 2. rewrite (map_fold_delete_L _ _ i y m); [|intros; lia|done].
    fold (sum (delete i m)). lia.
  Qed.

End Sums.

Lemma total_count_insertion d bc seg :
  Extract.total_count (Extract.count_insertion d bc seg) = Extract.total_count d + 1.
Proof.
  unfold Extract.total_count, Extract.count_insertion.
  destruct (d !! bc) as [inner|] eqn:Hd.
  - destruct (inner !! seg) as [n|] eqn:Hi;
      rewrite (sum_insert_update Extract.sum_counts d bc _ inner Hd);
      unfold Extract.sum_counts.
    + rewrite (sum_insert_update (fun n => n) inner seg _ n Hi). lia.
    + rewrite (sum_insert_fresh (fun n => n) inner seg _ Hi). lia.
  - rewrite (sum_insert_fresh Extract.sum_counts d bc _ Hd).
    unfold Extract.sum_counts. rewrite map_fold_singleton. lia.
Qed.

Lemma extract_snoc seqfile read :
  Extract.extract_chromosome_sequence (seqfile ++ [read])
  = Extract.extract_read (Extract.extract_chromosome_sequence seqfile) read.
Proof. unfold Extract.extract_chromosome_sequence. by rewrite foldl_snoc. Qed.

Lemma count_of_extract_read d read bc seg n :
  Extract.count_of d bc seg = Some n ->
  exists n', Extract.count_of (Extract.extract_read d read) bc seg = Some n' /\ n <= n'.
Proof.
  intros Hn. unfold Extract.extract_read.
  destruct (Extract.search _) as [[bc' seg']|]; [|exists n; split; [done|lia]].
  destruct (decide ((bc, seg) = (bc', seg'))) as [[= <- <-]|Hne].
  - rewrite count_of_insertion_same, Hn. simpl. eexists; split; [done|lia].
  - rewrite count_of_insertion_other by done. exists n; split; [done|lia].
Qed.

Lemma count_of_extract_read_pos d read :
  (forall bc seg n, Extract.count_of d bc seg = Some n -> 1 <= n) ->
  forall bc seg n,
    Extract.count_of (Extract.extract_read d read) bc seg = Some n -> 1 <= n.
Proof.
  intros Hd bc seg n. unfold Extract.extract_read.
  destruct (Extract.search _) as [[bc' seg']|]; [|apply Hd].
  destruct (decide ((bc, seg) = (bc', seg'))) as [[= <- <-]|Hne].
  - rewrite count_of_insertion_same. intros [= <-].
    destruct (Extract.count_of d bc seg) as [m|] eqn:Hm; simpl; [|lia].
    apply Hd in Hm. lia.
  - rewrite count_of_insertion_other by done. apply Hd.
Qed.

Lemma total_count_extract_read d read :
  Extract.total_count (Extract.extract_read d read)
  = Extract.total_count d + (if Extract.accepted read then 1 else 0).
Proof.
  unfold Extract.extract_read, Extract.accepted.
  destruct (Extract.search _) as [[bc seg]|].
  - rewrite total_count_insertion, bool_decide_true; [done|by eexists].
  - rewrite bool_decide_false; [lia|by intros [? ?]].
Qed.

(** ** The junction extractor *)

(** C2: the extractor validates the candidate barcode: for a read whose
    sequence is four characters, a segment of 16 or 17 characters of the
    pattern's shape and the anchor, the read is counted under its first
    four characters when each of them is one of A, C, G, T, and is passed
    over (the dictionary is unchanged) when one of them is anything
    else. *)
Theorem extract_read_validates_barcode
    (d : gmap str (gmap str Z)) (read : Read) (bc seg rest : str) :
  sequence read = bc ++ seg ++ u "ACAGGTTG" ++ rest ->
  length bc = 4%nat ->
  Extract.segment_ok seg = true ->
  if forallb (Extract.in_class (u "ACGT")) bc
  then Extract.extract_read d read = Extract.count_insertion d bc seg
       /\ Extract.count_of (Extract.extract_read d read) bc seg
          = Some (default 0 (Extract.count_of d bc seg) + 1)
  else Extract.extract_read d read = d /\ Extract.accepted read = false.
Proof.
  intros Hseq Hlen Hseg.
  destruct (forallb _ bc) eqn:Hbc.
  - assert (Extract.search (sequence read) = Some (bc, seg)) as Hs.
    { rewrite Hseq. apply search_complete; [|done].
      unfold Extract.barcode_ok. by rewrite Hbc, bool_decide_true. }
    unfold Extract.extract_read. rewrite Hs. split; [done|].
    apply count_of_insertion_same.
  - assert (Extract.search (sequence read) = None) as Hs.
    { apply search_barcode_invalid. rewrite Hseq.
      by rewrite <- Hlen, take_app_length. }
    unfold Extract.extract_read, Extract.accepted. rewrite Hs. split; [done|].
    apply bool_decide_false. by intros [? ?].
Qed.

Lemma extract_read_validates_barcode_witness :
  let read := mk_read "r1" "ACGTAAAAAAAAAAAAAATAACAGGTTG" in
  sequence read = u "ACGT" ++ u "AAAAAAAAAAAAAATA" ++ u "ACAGGTTG" ++ []
  /\ length (u "ACGT") = 4%nat
  /\ Extract.segment_ok (u "AAAAAAAAAAAAAATA") = true
  /\ Extract.extract_read ∅ read
     = Extract.count_insertion ∅ (u "ACGT") (u "AAAAAAAAAAAAAATA")
  /\ Extract.count_of (Extract.extract_read ∅ read) (u "ACGT") (u "AAAAAAAAAAAAAATA")
     = Some 1.
Proof.
  do 3 (split; [reflexivity|]).
  exact (extract_read_validates_barcode ∅
           (mk_read "r1" "ACGTAAAAAAAAAAAAAATAACAGGTTG")
           (u "ACGT") (u "AAAAAAAAAAAAAATA") [] eq_refl eq_refl eq_refl).
Defined.

(** C2, the claim as stated fails: the prefix [NCGT] is followed by a
    16-character segment that ends in TA and by the anchor, and the read
    is not counted. *)
Lemma extract_rejects_barcode_with_N :
  let read := mk_read "r1" "NCGTAAAAAAAAAAAAAATAACAGGTTG" in
  sequence read = u "NCGT" ++ u "AAAAAAAAAAAAAATA" ++ u "ACAGGTTG"
  /\ Extract.segment_ok (u "AAAAAAAAAAAAAATA") = true
  /\ Extract.accepted read = false
  /\ Extract.extract_chromosome_sequence [read] = ∅.
Proof. repeat split; vm_compute; reflexivity. Qed.

(** A read whose sequence is a barcode of four characters of ACGT, a
    segment made of one character of NACGT and characters of ACGT that
    end in TA, and the anchor: a segment of 16 or 17 characters is counted
    under (barcode, segment); a segment of 15 or 18 characters leaves the
    dictionary as it is. *)
Lemma extract_read_segment_cases
    (d : gmap str (gmap str Z)) (read : Read) (bc seg rest : str) :
  sequence read = bc ++ seg ++ u "ACAGGTTG" ++ rest ->
  Extract.barcode_ok bc = true ->
  Extract.segment_chars seg = true ->
  ((length seg = 16 \/ length seg = 17)%nat ->
   Extract.accepted read = true
   /\ Extract.extract_read d read = Extract.count_insertion d bc seg)
  /\ ((length seg = 15 \/ length seg = 18)%nat ->
      Extract.accepted read = false /\ Extract.extract_read d read = d).
Proof.
  intros Hseq Hbc Hseg. split; intros Hlen.
  - assert (Extract.search (sequence read) = Some (bc, seg)) as Hs.
    { rewrite Hseq. apply search_complete; [done|].
      unfold Extract.segment_ok. rewrite Hseg. simpl.
      apply orb_true_iff. rewrite !bool_decide_eq_true. done. }
    unfold Extract.accepted, Extract.extract_read. rewrite Hs.
    split; [|done]. apply bool_decide_true. by eexists.
  - assert (Extract.search (sequence read) = None) as Hs.
    { rewrite Hseq. apply search_reject_15_18; [|done|done].
      apply andb_true_iff in Hbc as [Hl _]. by apply bool_decide_eq_true in Hl. }
    unfold Extract.accepted, Extract.extract_read. rewrite Hs.
    split; [|done]. apply bool_decide_false. by intros [? ?].
Qed.



(** The spec's read with a segment of 16 characters. *)
Example extract_accepts_16 :
  let read := mk_read "r1" "ACGTAAAAAAAAAAAAAATAACAGGTTG" in
  sequence read = u "ACGT" ++ u "AAAAAAAAAAAAAATA" ++ u "ACAGGTTG" ++ []
  /\ Extract.barcode_ok (u "ACGT") = true
  /\ Extract.segment_chars (u "AAAAAAAAAAAAAATA") = true
  /\ Extract.accepted read = true
  /\ Extract.extract_read ∅ read
     = Extract.count_insertion ∅ (u "ACGT") (u "AAAAAAAAAAAAAATA").
Proof.
  do 3 (split; [reflexivity|]).
  exact (proj1 (extract_read_segment_cases ∅
                  (mk_read "r1" "ACGTAAAAAAAAAAAAAATAACAGGTTG")
                  (u "ACGT") (u "AAAAAAAAAAAAAATA") [] eq_refl eq_refl eq_refl)
           (or_introl eq_refl)).
Qed.

(** The reads of the spec's example with 15 and 18 characters. *)
Example extract_rejects_15_and_18 :
  Extract.extract_chromosome_sequence
    [mk_read "r1" "ACGTAAAAAAAAAAAAATAACAGGTTG";
     mk_read "r2" "ACGTAAAAAAAAAAAAAAAATAACAGGTTG"] = ∅.
Proof. vm_compute. reflexivity. Qed.


(** C6: three copies of the read with the sequence
    ACGT + AAAAAAAAAAAAAATA + ACAGGTTG give the dictionary
    {ACGT: {AAAAAAAAAAAAAATA: 3}}; the entry is created with count 1 by
    the first copy and incremented by each further one. *)
Theorem extract_three_copies :
  let r1 := mk_read "r1" "ACGTAAAAAAAAAAAAAATAACAGGTTG" in
  Extract.extract_chromosome_sequence [r1]
  = {[ u "ACGT" := {[ u "AAAAAAAAAAAAAATA" := 1 ]} ]}
  /\ Extract.extract_chromosome_sequence [r1; r1]
     = {[ u "ACGT" := {[ u "AAAAAAAAAAAAAATA" := 2 ]} ]}
  /\ Extract.extract_chromosome_sequence [r1; r1; r1]
     = {[ u "ACGT" := {[ u "AAAAAAAAAAAAAATA" := 3 ]} ]}.
Proof. repeat split; vm_compute; reflexivity. Qed.

(** C8: after any prefix [seqfile] of any stream [seqfile ++ more], every
    stored count is at least 1 and the counts add up to the number of
    accepted reads of the prefix; every entry of that moment is still
    there at the end of the stream, with a count that is not smaller. *)
Theorem extract_counts_invariant (seqfile more : list Read) :
  let d := Extract.extract_chromosome_sequence seqfile in
  (forall bc seg n, Extract.count_of d bc seg = Some n -> 1 <= n)
  /\ Extract.total_count d
     = Z.of_nat (length (List.filter Extract.accepted seqfile))
  /\ (forall bc seg n,
        Extract.count_of d bc seg = Some n ->
        exists n',
          Extract.count_of (Extract.extract_chromosome_sequence (seqfile ++ more)) bc seg
          = Some n' /\ n <= n').
Proof.
  simpl. split; [|split].
  - induction seqfile as [|read seqfile IH] using rev_ind.
    + intros bc seg n. unfold Extract.count_of, Extract.extract_chromosome_sequence.
      cbn [foldl]. by rewrite lookup_empty.
    + rewrite extract_snoc. by apply count_of_extract_read_pos.
  - induction seqfile as [|read seqfile IH] using rev_ind; [done|].
    rewrite extract_snoc, total_count_extract_read, IH.
    rewrite List.filter_app, length_app. simpl.
    destruct (Extract.accepted read); simpl; lia.
  - induction more as [|read more IH] using rev_ind.
    + intros bc seg n Hn. rewrite app_nil_r. exists n. split; [done|lia].
    + intros bc seg n Hn. destruct (IH bc seg n Hn) as (n1 & Hn1 & Hle).
      rewrite (assoc_L (++)), extract_snoc.
      destruct (count_of_extract_read _ read bc seg n1 Hn1) as (n2 & Hn2 & Hle2).
      exists n2. split; [done|lia].
Qed.

(** ** trim_fastq: the first occurrence of TA and the anchor *)

Lemma find_from_unfold pat s i :
  Demultiplex.find_from pat s i
  = if bool_decide (take (length pat) s = pat) then i
    else match s with
         | [] => -1
         | _ :: s' => Demultiplex.find_from pat s' (i + 1)
         end.
Proof. by destruct s. Qed.

Lemma find_from_first pat pre post i :
  (forall pre' post', pre ++ pat ++ post = pre' ++ pat ++ post' ->
                      (length pre <= length pre')%nat) ->
  Demultiplex.find_from pat (pre ++ pat ++ post) i = i + Z.of_nat (length pre).
Proof.
  revert i. induction pre as [|c pre IH]; intros i Hfirst.
  - rewrite find_from_unfold. simpl.
    rewrite take_app_length, bool_decide_true by done. lia.
  - rewrite find_from_unfold. case_bool_decide as Hp.
    + exfalso.
      assert (length (c :: pre) <= length (@nil N))%nat as Hle; [|simpl in Hle; lia].
      apply (Hfirst [] (drop (length pat) ((c :: pre) ++ pat ++ post))).
      rewrite <- (take_drop (length pat) ((c :: pre) ++ pat ++ post)) at 1.
      by rewrite Hp.
    + simpl. rewrite IH.
      * lia.
      * intros pre' post' Heq.
        specialize (Hfirst (c :: pre') post'). simpl in Hfirst.
        rewrite Heq in Hfirst. specialize (Hfirst eq_refl). lia.
Qed.

(** [find] on every string: it returns [-1] when the pattern does not
    occur, and the length of the shortest prefix that the pattern follows
    when it does. *)
Lemma find_from_spec (pat s : str) (i : Z) :
  (Demultiplex.find_from pat s i = -1
   /\ forall pre post, s <> pre ++ pat ++ post)
  \/ (exists pre post,
        s = pre ++ pat ++ post
        /\ (forall pre' post', s = pre' ++ pat ++ post' ->
                               (length pre <= length pre')%nat)
        /\ Demultiplex.find_from pat s i = i + Z.of_nat (length pre)).
Proof.
  revert i. induction s as [|c s IH]; intros i; rewrite find_from_unfold.
  - case_bool_decide as Hp.
    + right. exists [], (drop (length pat) []). split; [|split].
      * cbn [app]. rewrite <- Hp at 1. by rewrite take_drop.
      * intros pre' post' _. simpl. lia.
      * simpl. lia.
    + left. split; [done|]. intros pre post Heq. apply Hp.
      destruct pre; [|done]. cbn [app] in Heq.
      by rewrite Heq, take_app_length.
  - case_bool_decide as Hp.
    + right. exists [], (drop (length pat) (c :: s)). split; [|split].
      * cbn [app]. rewrite <- Hp at 1. by rewrite take_drop.
      * intros pre' post' _. simpl. lia.
      * simpl. lia.
    + destruct (IH (i + 1)) as [[Hnone Hno]|(pre & post & -> & Hfirst & Hfound)].
      * left. split; [done|]. intros pre' post' Heq.
        destruct pre' as [|c' pre'].
        -- apply Hp. cbn [app] in Heq. by rewrite Heq, take_app_length.
        -- injection Heq as _ Heq. by apply (Hno pre' post').
      * right. exists (c :: pre), post. split; [done|]. split.
        -- intros pre' post' Heq. destruct pre' as [|c' pre'].
           ++ exfalso. apply Hp. cbn [app] in Heq. by rewrite Heq, take_app_length.
           ++ injection Heq as _ Heq. specialize (Hfirst pre' post' Heq).
              simpl. lia.
        -- rewrite Hfound. simpl length. lia.
Qed.

(** The index that [trim_fastq] computes on a read in which TA and the
    anchor occur: when the sequence is [pre ++ TAACAGGTTG ++ post] and no
    occurrence starts before the end of [pre], the computed length is
    [len(pre) + 2 - 4] and the read is kept exactly when that is 16 or 17,
    whatever [post] holds. *)
Lemma trim_read_at_first_occurrence (read : Read) (pre post : str) :
  sequence read = pre ++ u "TAACAGGTTG" ++ post ->
  (forall pre' post', sequence read = pre' ++ u "TAACAGGTTG" ++ post' ->
                      (length pre <= length pre')%nat) ->
  Demultiplex.chromosomeSeq read = Z.of_nat (length pre) + 2 - Demultiplex.bLen
  /\ (is_Some (Demultiplex.trim_read read)
      <-> 16 <= Z.of_nat (length pre) + 2 - Demultiplex.bLen < 18).
Proof.
  intros Hseq Hfirst.
  assert (Demultiplex.chromosomeSeq read
          = Z.of_nat (length pre) + 2 - Demultiplex.bLen) as Hcs.
  { unfold Demultiplex.chromosomeSeq, Demultiplex.find. rewrite Hseq.
    rewrite find_from_first; [lia|]. by rewrite <- Hseq. }
  split; [done|].
  unfold Demultiplex.trim_read. rewrite Hcs.
  destruct (Z.leb_spec 16 (Z.of_nat (length pre) + 2 - Demultiplex.bLen));
    destruct (Z.ltb_spec (Z.of_nat (length pre) + 2 - Demultiplex.bLen) 18);
    simpl; split; intros H'; try lia; try (by eexists); by destruct H' as [? ?].
Qed.

(** The index that [trim_fastq] computes on a read in which TA and the
    anchor do not occur: [find] gives [-1], the computed length is
    [-1 + 2 - 4], and the read is dropped. *)
Lemma trim_read_no_occurrence (read : Read) :
  (forall pre post, sequence read <> pre ++ u "TAACAGGTTG" ++ post) ->
  Demultiplex.find (u "TAACAGGTTG") (sequence read) = -1
  /\ Demultiplex.chromosomeSeq read = -1 + 2 - Demultiplex.bLen
  /\ Demultiplex.trim_read read = None.
Proof.
  intros Hno.
  assert (Demultiplex.find (u "TAACAGGTTG") (sequence read) = -1) as Hf.
  { unfold Demultiplex.find.
    destruct (find_from_spec (u "TAACAGGTTG") (sequence read) 0)
      as [[Hnone _]|(pre & post & Hseq & _)]; [done|].
    by destruct (Hno pre post). }
  split; [done|].
  unfold Demultiplex.trim_read, Demultiplex.chromosomeSeq. rewrite Hf.
  by split.
Qed.

(** C3: [trim_fastq] decides, for every read, on the first occurrence of
    TA and the anchor in the whole sequence, the barcode included.  Either
    TAACAGGTTG does not occur in the sequence, and then the search gives
    [-1] and the read is dropped; or it occurs, and then, with [pre] the
    characters before its first occurrence, the computed length is
    [len(pre) + 2 - 4], whatever follows the occurrence.  So a read is kept
    exactly when TAACAGGTTG occurs in its sequence and the length computed
    from the first occurrence is 16 or 17, that is when the first
    occurrence starts at index 18 or 19. *)
Theorem trim_read_first_occurrence (read : Read) :
  let junction := u "TAACAGGTTG" in
  let first_at (pre post : str) :=
    sequence read = pre ++ junction ++ post
    /\ forall pre' post', sequence read = pre' ++ junction ++ post' ->
                          (length pre <= length pre')%nat in
  ((forall pre post, sequence read <> pre ++ junction ++ post)
   \/ exists pre post, first_at pre post)
  /\ ((forall pre post, sequence read <> pre ++ junction ++ post) ->
      Demultiplex.find junction (sequence read) = -1
      /\ Demultiplex.chromosomeSeq read = -1 + 2 - Demultiplex.bLen
      /\ Demultiplex.trim_read read = None)
  /\ (forall pre post,
        first_at pre post ->
        Demultiplex.find junction (sequence read) = Z.of_nat (length pre)
        /\ Demultiplex.chromosomeSeq read
           = Z.of_nat (length pre) + 2 - Demultiplex.bLen
        /\ (is_Some (Demultiplex.trim_read read)
            <-> 16 <= Z.of_nat (length pre) + 2 - Demultiplex.bLen < 18))
  /\ (is_Some (Demultiplex.trim_read read)
      <-> exists pre post,
            first_at pre post
            /\ (Z.of_nat (length pre) + 2 - Demultiplex.bLen = 16
                \/ Z.of_nat (length pre) + 2 - Demultiplex.bLen = 17)).
Proof.
  intros junction first_at.
  assert ((forall pre post, sequence read <> pre ++ junction ++ post)
          \/ exists pre post, first_at pre post) as Hcases.
  { destruct (find_from_spec junction (sequence read) 0)
      as [[_ Hno]|(pre & post & Hseq & Hfirst & _)]; [by left|].
    right. by exists pre, post. }
  split; [done|]. split; [apply trim_read_no_occurrence|]. split.
  - intros pre post [Hseq Hfirst].
    destruct (trim_read_at_first_occurrence read pre post Hseq Hfirst) as [Hcs Hkept].
    split; [|done].
    unfold Demultiplex.chromosomeSeq in Hcs. fold junction in Hcs. lia.
  - split.
    + intros Hkept. destruct Hcases as [Hno|(pre & post & Hseq & Hfirst)].
      * apply trim_read_no_occurrence in Hno as (_ & _ & Hnone).
        rewrite Hnone in Hkept. by destruct Hkept.
      * exists pre, post. split; [done|].
        apply (trim_read_at_first_occurrence read pre post Hseq Hfirst) in Hkept.
        lia.
    + intros (pre & post & [Hseq Hfirst] & Hlen).
      apply (trim_read_at_first_occurrence read pre post Hseq Hfirst). lia.
Qed.

Lemma first_occurrence_example pre' post' :
  u "ACGTAATAACAGGTTGAATAACAGGTTG" = pre' ++ u "TAACAGGTTG" ++ post' ->
  (length (u "ACGTAA") <= length pre')%nat.
Proof.
  change (length (u "ACGTAA")) with 6%nat.
  let s := eval vm_compute in (u "ACGTAATAACAGGTTGAATAACAGGTTG") in
  change (u "ACGTAATAACAGGTTGAATAACAGGTTG") with s.
  let p := eval vm_compute in (u "TAACAGGTTG") in
  change (u "TAACAGGTTG") with p.
  intros H.
  do 6 (destruct pre' as [|? pre']; [by simplify_eq/=|]). simpl. lia.
Qed.

(** A read in which TA and the anchor occur twice: the first occurrence,
    at index 6, gives the length 4, and the read is dropped although the
    second occurrence, at index 18, would give the length 16. *)
Example trim_read_earlier_occurrence :
  let read := mk_read "r1" "ACGTAATAACAGGTTGAATAACAGGTTG" in
  sequence read = u "ACGTAA" ++ u "TAACAGGTTG" ++ u "AATAACAGGTTG"
  /\ (forall pre' post', sequence read = pre' ++ u "TAACAGGTTG" ++ post' ->
                         (length (u "ACGTAA") <= length pre')%nat)
  /\ Demultiplex.chromosomeSeq read = 4
  /\ (is_Some (Demultiplex.trim_read read) <-> 16 <= 4 < 18).
Proof.
  split; [reflexivity|]. split; [exact first_occurrence_example|].
  exact (trim_read_at_first_occurrence
           (mk_read "r1" "ACGTAATAACAGGTTGAATAACAGGTTG")
           (u "ACGTAA") (u "AATAACAGGTTG") eq_refl first_occurrence_example).
Qed.

(** C3, the claim as stated fails.  For [extract_chromosome_sequence]:
    in the first read TA and the anchor first occur two characters after
    the barcode, which gives the length 4, and the read is counted with
    the segment of 16 characters that ends at the later occurrence.  For
    [trim_fastq]: in the second read the search of the remainder after the
    barcode finds TA and the anchor at 14, which is index 18 of the
    sequence and the length 16, and the read is dropped because the search
    starts at the first character of the sequence and stops at 0. *)
Lemma acceptance_is_not_remainder_search :
  let r1 := mk_read "r1" "ACGTAATAACAGGTTGAATAACAGGTTG" in
  let r2 := mk_read "r2" "TAACAGGTTGAAAAAAAATAACAGGTTG" in
  (Demultiplex.find (u "TAACAGGTTG") (drop 4 (sequence r1)) = 2
   /\ Demultiplex.chromosomeSeq r1 = 4
   /\ Extract.accepted r1 = true
   /\ Extract.extract_chromosome_sequence [r1]
      = {[ u "ACGT" := {[ u "AATAACAGGTTGAATA" := 1 ]} ]})
  /\ (Demultiplex.find (u "TAACAGGTTG") (drop 4 (sequence r2)) = 14
      /\ Demultiplex.find (u "TAACAGGTTG") (sequence r2) = 0
      /\ Demultiplex.chromosomeSeq r2 = -2
      /\ Demultiplex.trim_read r2 = None).
Proof. repeat split; vm_compute; reflexivity. Qed.

(** The spec's reads through [trim_fastq]: 16 is kept, 15 and 18 are
    dropped. *)
Example trim_fastq_window :
  Demultiplex.trim_fastq
    [mk_read "r15" "ACGTAAAAAAAAAAAAATAACAGGTTG";
     mk_read "r16" "ACGTAAAAAAAAAAAAAATAACAGGTTG";
     mk_read "r18" "ACGTAAAAAAAAAAAAAAAATAACAGGTTG"]
  = [ {| name := u "r16"; sequence := u "AAAAAAAAAAAAAATA";
         quality := u "IIIIIIIIIIIIIIII" |} ].
Proof. vm_compute. reflexivity. Qed.

(** ** The barcode classifier *)

(** *** OrderedDict *)

Lemma od_set_keys {V} (k : str) (v : V) (d : odict V) :
  od_keys (od_set k v d)
  = if bool_decide (k ∈ od_keys d) then od_keys d else od_keys d ++ [k].
Proof.
  unfold od_keys. induction d as [|[k' v'] d IH]; [done|].
  change (od_set k v ((k', v') :: d))
    with (if decide (k' = k) then (k, v) :: d else (k', v') :: od_set k v d).
  destruct (decide (k' = k)) as [->|Hne]; rewrite !fmap_cons; simpl.
  - rewrite bool_decide_true by left. done.
  - rewrite IH. case_bool_decide as Hin.
    + rewrite bool_decide_true by by right. done.
    + rewrite bool_decide_false; [done|].
      intros [?|?]%elem_of_cons; congruence.
Qed.

Lemma od_set_keys_NoDup {V} (k : str) (v : V) (d : odict V) :
  NoDup (od_keys d) -> NoDup (od_keys (od_set k v d)).
Proof.
  intros Hd. rewrite od_set_keys. case_bool_decide as Hin; [done|].
  apply NoDup_app. split; [done|]. split; [|apply NoDup_singleton].
  intros x Hx ->%list_elem_of_singleton. done.
Qed.

Lemma elem_of_od_set {V} (k : str) (v : V) (d : odict V) k' v' :
  NoDup (od_keys d) ->
  (k', v') ∈ od_set k v d <-> (k' = k /\ v' = v) \/ (k' <> k /\ (k', v') ∈ d).
Proof.
  unfold od_keys. induction d as [|[k0 v0] d IH]; simpl; intros Hnd.
  - rewrite list_elem_of_singleton. split.
    + intros [= -> ->]. by left.
    + intros [[-> ->]|[_ H]]; [done|]. by apply elem_of_nil in H.
  - apply NoDup_cons in Hnd as [Hk0 Hnd].
    destruct (decide (k0 = k)) as [->|Hne]; rewrite !elem_of_cons.
    + split.
      * intros [[= -> ->]|Hin]; [by left|].
        right. split; [|by right].
        intros ->. apply Hk0. apply list_elem_of_fmap. by exists (k, v').
      * intros [[-> ->]|[Hk [[= ? ?]|Hin]]]; [by left|done|by right].
    + rewrite (IH Hnd). split.
      * intros [[= -> ->]|[[-> ->]|[Hk Hin]]].
        -- right. split; [done|by left].
        -- by left.
        -- right. split; [done|by right].
      * intros [[-> ->]|[Hk [[= -> ->]|Hin]]].
        -- right. by left.
        -- by left.
        -- right. right. by split.
Qed.

(** *** [barcodes_dict] *)

Lemma samples_fold_snoc (samples : odict SampleEntry) sample e :
  foldl (fun bd '(sample, e) => od_set sample (barcode e) bd) [] (samples ++ [(sample, e)])
  = od_set sample (barcode e)
      (foldl (fun bd '(sample, e) => od_set sample (barcode e) bd) [] samples).
Proof. by rewrite foldl_snoc. Qed.

Lemma samples_fold_NoDup (samples : odict SampleEntry) :
  NoDup (od_keys (foldl (fun bd '(sample, e) => od_set sample (barcode e) bd) [] samples)).
Proof.
  induction samples as [|[sample e] samples IH] using rev_ind.
  - apply NoDup_nil_2.
  - rewrite samples_fold_snoc. by apply od_set_keys_NoDup.
Qed.

Lemma samples_fold_keys (samples : odict SampleEntry) :
  NoDup (od_keys samples) ->
  od_keys (foldl (fun bd '(sample, e) => od_set sample (barcode e) bd) [] samples)
  = od_keys samples.
Proof.
  induction samples as [|[sample e] samples IH] using rev_ind; [done|].
  unfold od_keys in *. rewrite fmap_app. simpl. intros Hnd.
  apply NoDup_app in Hnd as (Hnd & Hfresh & _).
  rewrite samples_fold_snoc. fold (od_keys (od_set sample (barcode e)
    (foldl (fun bd '(sample, e) => od_set sample (barcode e) bd) [] samples))).
  rewrite od_set_keys. unfold od_keys. rewrite (IH Hnd).
  rewrite bool_decide_false; [done|].
  intros Hin. apply (Hfresh sample Hin). by left.
Qed.

Lemma samples_fold_elem (samples : odict SampleEntry) k v :
  NoDup (od_keys samples) ->
  (k, v) ∈ foldl (fun bd '(sample, e) => od_set sample (barcode e) bd) [] samples
  <-> exists e, (k, e) ∈ samples /\ v = barcode e.
Proof.
  induction samples as [|[sample e] samples IH] using rev_ind.
  - intros _. simpl. split.
    + by intros ?%elem_of_nil.
    + by intros (? & ?%elem_of_nil & _).
  - unfold od_keys in *. rewrite fmap_app. simpl. intros Hnd.
    apply NoDup_app in Hnd as (Hnd & Hfresh & _).
    rewrite samples_fold_snoc, elem_of_od_set by apply samples_fold_NoDup.
    rewrite (IH Hnd). split.
    + intros [[-> ->]|[Hk (e' & Hin & ->)]].
      * exists e. split; [|done]. apply elem_of_app. right. by left.
      * exists e'. split; [|done]. apply elem_of_app. by left.
    + intros (e' & [Hin|Hin%list_elem_of_singleton]%elem_of_app & ->).
      * right. split; [|by exists e'].
        intros ->. apply (Hfresh sample); [|by left].
        apply list_elem_of_fmap. by exists (sample, e').
      * injection Hin as -> ->. by left.
Qed.

Lemma barcodes_dict_NoDup (samples : odict SampleEntry) :
  NoDup (od_keys (Demultiplex.build_barcodes_dict samples)).
Proof. apply od_set_keys_NoDup, samples_fold_NoDup. Qed.

Lemma barcodes_dict_elem (samples : odict SampleEntry) k v :
  NoDup (od_keys samples) ->
  (k, v) ∈ Demultiplex.build_barcodes_dict samples
  <-> (k = Demultiplex.other /\ v = Demultiplex.other)
      \/ (k <> Demultiplex.other /\ exists e, (k, e) ∈ samples /\ v = barcode e).
Proof.
  intros Hnd. unfold Demultiplex.build_barcodes_dict.
  rewrite elem_of_od_set by apply samples_fold_NoDup.
  by rewrite (samples_fold_elem samples k v Hnd).
Qed.

Lemma barcodes_dict_other (samples : odict SampleEntry) :
  Demultiplex.other ∈ od_values (Demultiplex.build_barcodes_dict samples).
Proof.
  unfold od_values. apply list_elem_of_fmap.
  exists (Demultiplex.other, Demultiplex.other). split; [done|].
  apply elem_of_od_set; [apply samples_fold_NoDup|]. by left.
Qed.

(** *** The loop of [demultiplex_fastq] *)

Lemma succ_no_flush e n :
  0 < e -> 0 <= n -> (n + 1) mod e <> 0 ->
  (n + 1) / e = n / e /\ (n + 1) mod e = n mod e + 1.
Proof.
  intros He Hn Hm.
  pose proof (Z.div_mod n e ltac:(lia)) as Hdm.
  pose proof (Z.mod_pos_bound n e He) as Hb.
  assert (n mod e + 1 < e) as Hlt.
  { destruct (decide (n mod e + 1 = e)) as [Heq|]; [|lia].
    exfalso. apply Hm.
    replace (n + 1) with ((n / e + 1) * e) by lia.
    apply Z.mod_mul. lia. }
  split.
  - symmetry. apply (Z.div_unique (n + 1) e (n / e) (n mod e + 1)); lia.
  - symmetry. apply (Z.mod_unique (n + 1) e (n / e) (n mod e + 1)); lia.
Qed.

Lemma succ_flush e n :
  0 < e -> 0 <= n -> (n + 1) mod e = 0 ->
  (n + 1) / e = n / e + 1 /\ n mod e + 1 = e.
Proof.
  intros He Hn Hm.
  pose proof (Z.div_mod n e ltac:(lia)) as Hdm.
  pose proof (Z.mod_pos_bound n e He) as Hb.
  assert (n mod e + 1 = e) as Heq.
  { destruct (decide (n mod e + 1 = e)) as [|Hne]; [done|].
    exfalso.
    assert ((n + 1) mod e = n mod e + 1) as Hr.
    { symmetry. apply (Z.mod_unique (n + 1) e (n / e) (n mod e + 1)); lia. }
    lia. }
  split; [|done].
  symmetry. apply (Z.div_unique (n + 1) e (n / e + 1) 0); lia.
Qed.

Lemma buffered_append (dd : gmap str (list Read)) k bucket read :
  dd !! k = Some bucket ->
  Demultiplex.buffered (<[k := bucket ++ [read]]> dd) = Demultiplex.buffered dd + 1.
Proof.
  intros Hk. unfold Demultiplex.buffered.
  rewrite (sum_insert_update (fun b : list Read => Z.of_nat (length b)) dd k _ bucket Hk).
  rewrite length_app. simpl. lia.
Qed.

Lemma buffered_all_empty (dd : gmap str (list Read)) :
  (forall k bucket, dd !! k = Some bucket -> bucket = []) ->
  Demultiplex.buffered dd = 0.
Proof.
  unfold Demultiplex.buffered.
  apply (map_fold_weak_ind
           (fun n (m : gmap str (list Read)) =>
              (forall k bucket, m !! k = Some bucket -> bucket = []) -> n = 0)).
  - done.
  - intros k bucket m n Hfresh IH Hall.
    rewrite (Hall k bucket) by apply lookup_insert_eq. simpl.
    apply IH. intros k' b' Hk'. apply (Hall k').
    rewrite lookup_insert_ne; [done|]. intros ->. congruence.
Qed.

Lemma buffered_cleared (dd : gmap str (list Read)) :
  Demultiplex.buffered ((fun _ => []) <$> dd) = 0.
Proof.
  apply buffered_all_empty. intros k bucket.
  rewrite lookup_fmap. destruct (dd !! k); simpl; congruence.
Qed.

Lemma file_of_app sampleName w1 w2 :
  Demultiplex.file_of sampleName (w1 ++ w2)
  = Demultiplex.file_of sampleName w1 ++ Demultiplex.file_of sampleName w2.
Proof. unfold Demultiplex.file_of. by rewrite List.filter_app, fmap_app. Qed.

Lemma file_of_bucket sampleName sampleName' (bucket : list Read) :
  Demultiplex.file_of sampleName ((fun r => (sampleName', r)) <$> bucket)
  = if bool_decide (sampleName' = sampleName) then bucket else [].
Proof.
  unfold Demultiplex.file_of. induction bucket as [|r bucket IH].
  - by case_bool_decide.
  - rewrite fmap_cons. cbn [List.filter fst].
    destruct (bool_decide (sampleName' = sampleName)); [|done].
    rewrite fmap_cons. cbn [snd]. by f_equal.
Qed.

Lemma file_of_written (bd : odict str) (dd : gmap str (list Read)) sampleName bc :
  NoDup (od_keys bd) -> (sampleName, bc) ∈ bd ->
  Demultiplex.file_of sampleName
    (flat_map (fun item : str * str =>
                 (fun r => (item.1, r)) <$> default [] (dd !! item.2)) bd)
  = default [] (dd !! bc).
Proof.
  unfold od_keys. induction bd as [|[n b] bd IH]; intros Hnd Hin.
  - by apply elem_of_nil in Hin.
  - rewrite fmap_cons in Hnd. apply NoDup_cons in Hnd as [Hfresh Hnd].
    simpl. rewrite file_of_app, file_of_bucket.
    apply elem_of_cons in Hin as [[= <- <-]|Hin].
    + rewrite bool_decide_true by done.
      assert (Demultiplex.file_of sampleName
                (flat_map (fun item : str * str =>
                   (fun r => (item.1, r)) <$> default [] (dd !! item.2)) bd) = []) as ->.
      { clear IH Hnd. induction bd as [|[n' b'] bd IH]; [done|].
        simpl. rewrite file_of_app, file_of_bucket.
        rewrite fmap_cons in Hfresh. simpl in Hfresh.
        rewrite bool_decide_false.
        - apply IH. intros ?. apply Hfresh. by right.
        - intros ->. apply Hfresh. by left. }
      by rewrite app_nil_r.
    + rewrite bool_decide_false; [by apply IH|].
      intros ->. apply Hfresh. apply list_elem_of_fmap. by exists (sampleName, bc).
Qed.

Lemma keys_ok_insert (bd : odict str) (dd : gmap str (list Read)) k bucket :
  keys_ok bd dd -> is_Some (dd !! k) -> keys_ok bd (<[k := bucket]> dd).
Proof.
  intros Hok Hk k'. rewrite <- (Hok k').
  destruct (decide (k = k')) as [<-|Hne].
  - rewrite lookup_insert_eq. split; [done|by eexists].
  - by rewrite lookup_insert_ne.
Qed.

Lemma keys_ok_cleared (bd : odict str) (dd : gmap str (list Read)) :
  keys_ok bd dd -> keys_ok bd ((fun _ => []) <$> dd).
Proof.
  intros Hok k. rewrite <- (Hok k), lookup_fmap. apply fmap_is_Some.
Qed.

Lemma classify_spec (bd : odict str) (dd : gmap str (list Read)) read :
  Demultiplex.other ∈ od_values bd -> keys_ok bd dd ->
  exists bucket,
    dd !! Demultiplex.bucket_of bd read = Some bucket
    /\ Demultiplex.classify dd read
       = Some (<[Demultiplex.bucket_of bd read := bucket ++ [read]]> dd).
Proof.
  intros Hother Hok. unfold Demultiplex.classify, Demultiplex.bucket_of.
  destruct (dd !! slice_to 4 (sequence read)) as [bucket|] eqn:Hb.
  - rewrite bool_decide_true by (apply Hok; by eexists).
    exists bucket. by rewrite Hb.
  - rewrite bool_decide_false.
    + apply Hok in Hother as [bucket Ho]. exists bucket. by rewrite Ho.
    + intros Hin. apply Hok in Hin as [? ?]. congruence.
Qed.

Lemma write_buckets_spec (dd : gmap str (list Read)) (items : odict str) acc :
  (forall item, item ∈ items -> is_Some (dd !! item.2)) ->
  foldl (Demultiplex.write_bucket dd) (Some acc) items
  = Some (acc ++ flat_map (fun item : str * str =>
                             (fun r => (item.1, r)) <$> default [] (dd !! item.2)) items).
Proof.
  revert acc. induction items as [|item items IH]; intros acc Hall.
  - by rewrite app_nil_r.
  - destruct (Hall item ltac:(left)) as [bucket Hb].
    cbn [foldl flat_map]. unfold Demultiplex.write_bucket at 2. simpl.
    rewrite Hb. simpl. rewrite IH.
    + by rewrite <- (assoc_L (++)).
    + intros item' Hin. apply Hall. by right.
Qed.

Lemma writeReads_spec (bd : odict str) (dd : gmap str (list Read)) w :
  keys_ok bd dd ->
  Demultiplex.writeReads dd bd w
  = Some {| Demultiplex.written :=
              Demultiplex.written w
              ++ flat_map (fun item : str * str =>
                             (fun r => (item.1, r)) <$> default [] (dd !! item.2)) bd;
            Demultiplex.flushes := Demultiplex.flushes w ++ [dd] |}.
Proof.
  intros Hok. unfold Demultiplex.writeReads.
  rewrite write_buckets_spec; [done|].
  intros [n b] Hin. apply Hok. unfold od_values.
  apply list_elem_of_fmap. by exists (n, b).
Qed.

Section Classifier.

Variable every : Z.
Variable bd : odict str.
Hypothesis every_pos : 0 < every.
Hypothesis bd_other : Demultiplex.other ∈ od_values bd.
Hypothesis bd_NoDup : NoDup (od_keys bd).

Lemma step_inv processed st read :
  loop_inv every bd processed st ->
  exists st', Demultiplex.step every bd st read = Some st'
              /\ loop_inv every bd (processed ++ [read]) st'.
Proof.
  intros [Hkeys Hn Hfiles Hfl Hbuf].
  destruct (classify_spec bd _ read bd_other Hkeys) as (bucket & Hb & Hc).
  set (k := Demultiplex.bucket_of bd read) in *.
  set (dd' := <[k := bucket ++ [read]]> (Demultiplex.demultiplex_dict st)) in *.
  assert (keys_ok bd dd') as Hkeys' by (apply keys_ok_insert; [done|by eexists]).
  assert (forall sampleName bc, (sampleName, bc) ∈ bd ->
            Demultiplex.file_of sampleName (Demultiplex.written (Demultiplex.world st))
            ++ default [] (dd' !! bc)
            = filter (fun r => Demultiplex.bucket_of bd r = bc) (processed ++ [read]))
    as Hfiles'.
  { intros sampleName bc Hin. rewrite filter_app, <- (Hfiles sampleName bc Hin).
    rewrite <- (assoc_L (++)). f_equal.
    unfold dd'. fold k. destruct (decide (k = bc)) as [<-|Hne].
    - rewrite lookup_insert_eq, Hb, filter_cons_True by done. done.
    - rewrite lookup_insert_ne, filter_cons_False by done.
      by rewrite app_nil_r. }
  assert (Demultiplex.buffered dd'
          = Z.of_nat (length processed) mod every + 1) as Hbuf'.
  { unfold dd'. by rewrite buffered_append, Hbuf. }
  assert (Z.of_nat (length (processed ++ [read])) = Z.of_nat (length processed) + 1)
    as Hlen by (rewrite length_app; simpl; lia).
  unfold Demultiplex.step. rewrite Hc. simpl. rewrite Hn.
  destruct (Z.eqb_spec ((Z.of_nat (length processed) + 1) mod every) 0) as [Hm|Hm].
  - destruct (succ_flush every (Z.of_nat (length processed)) every_pos
                ltac:(lia) Hm) as [Hdiv Hfull].
    rewrite (writeReads_spec bd dd' _ Hkeys'). simpl.
    eexists. split; [done|]. split; simpl.
    + by apply keys_ok_cleared.
    + lia.
    + intros sampleName bc Hin.
      rewrite file_of_app, (file_of_written bd dd' sampleName bc bd_NoDup Hin).
      rewrite lookup_fmap.
      assert (is_Some (dd' !! bc)) as [b' Hb'].
      { apply Hkeys'. unfold od_values. apply list_elem_of_fmap.
        by exists (sampleName, bc). }
      rewrite Hb'. simpl. rewrite app_nil_r.
      rewrite <- (Hfiles' sampleName bc Hin). by rewrite Hb'.
    + rewrite fmap_app, Hfl, Hlen, Hdiv. simpl. rewrite Hbuf', Hfull.
      rewrite Z2Nat.inj_add by (try apply Z.div_pos; lia).
      change (Z.to_nat 1) with 1%nat. rewrite Nat.add_1_r.
      by rewrite replicate_S_end.
    + rewrite buffered_cleared, Hlen. lia.
  - destruct (succ_no_flush every (Z.of_nat (length processed)) every_pos
                ltac:(lia) Hm) as [Hdiv Hmod].
    eexists. split; [done|]. split; simpl.
    + done.
    + lia.
    + done.
    + by rewrite Hfl, Hlen, Hdiv.
    + rewrite Hbuf', Hlen. lia.
Qed.

Lemma loop_inv_run seqfile processed st :
  loop_inv every bd processed st ->
  exists st', Demultiplex.loop every bd st seqfile = Some st'
              /\ loop_inv every bd (processed ++ seqfile) st'.
Proof.
  revert processed st. induction seqfile as [|read seqfile IH]; intros processed st Hinv.
  - exists st. by rewrite app_nil_r.
  - destruct (step_inv processed st read Hinv) as (st1 & Hstep & Hinv1).
    destruct (IH _ _ Hinv1) as (st2 & Hloop & Hinv2).
    exists st2. simpl. rewrite Hstep. simpl.
    by rewrite <- (assoc_L (++)) in Hinv2.
Qed.

End Classifier.

Lemma init_lookup_fold (items : odict str) (dd0 : gmap str (list Read)) k :
  foldl (fun dd '(_, bc) => <[bc := []]> dd) dd0 items !! k
  = if bool_decide (k ∈ od_values items) then Some [] else dd0 !! k.
Proof.
  unfold od_values. revert dd0. induction items as [|[n b] items IH]; intros dd0.
  - cbn [foldl]. rewrite fmap_nil.
    case_bool_decide as Hin; [by apply elem_of_nil in Hin|done].
  - cbn [foldl]. rewrite IH, fmap_cons. cbn [snd].
    case_bool_decide as Hin.
    + rewrite bool_decide_true by by right. done.
    + destruct (decide (b = k)) as [->|Hne].
      * rewrite bool_decide_true by left. by rewrite lookup_insert_eq.
      * rewrite lookup_insert_ne by done. rewrite bool_decide_false; [done|].
        intros [?|?]%elem_of_cons; congruence.
Qed.

Lemma init_lookup (bd : odict str) k :
  Demultiplex.init_demultiplex_dict bd !! k
  = if bool_decide (k ∈ od_values bd) then Some [] else None.
Proof.
  unfold Demultiplex.init_demultiplex_dict.
  by rewrite init_lookup_fold, lookup_empty.
Qed.

Lemma init_inv every (bd : odict str) :
  loop_inv every bd []
    {| Demultiplex.demultiplex_dict := Demultiplex.init_demultiplex_dict bd;
       Demultiplex.nreads := 0;
       Demultiplex.world := {| Demultiplex.written := []; Demultiplex.flushes := [] |} |}.
Proof.
  split; simpl.
  - intros k. rewrite init_lookup.
    case_bool_decide as Hin; split; intros H;
      first [done | by eexists | by destruct H].
  - done.
  - intros sampleName bc Hin. rewrite init_lookup, bool_decide_true; [done|].
    unfold od_values. apply list_elem_of_fmap. by exists (sampleName, bc).
  - done.
  - rewrite ?Zmod_0_l. apply buffered_all_empty.
    intros k bucket. rewrite init_lookup. case_bool_decide; congruence.
Qed.

(** The run of [demultiplex_fastq] with the flush threshold [every]: it
    returns, every file holds the reads of its bucket in input order, and
    the calls of [writeReads] are one per full batch and a last one. *)
Lemma demultiplex_run every (seqfile : list Read) (samples_dict : odict SampleEntry) :
  0 < every ->
  let bd := Demultiplex.build_barcodes_dict samples_dict in
  exists st,
    Demultiplex.demultiplex_fastq_every every seqfile samples_dict = Some st
    /\ Demultiplex.nreads st = Z.of_nat (length seqfile)
    /\ (forall sampleName bc,
          (sampleName, bc) ∈ bd ->
          Demultiplex.file_of sampleName (Demultiplex.written (Demultiplex.world st))
          = filter (fun r => Demultiplex.bucket_of bd r = bc) seqfile)
    /\ Demultiplex.buffered <$> Demultiplex.flushes (Demultiplex.world st)
       = replicate (Z.to_nat (Z.of_nat (length seqfile) / every)) every
         ++ [Z.of_nat (length seqfile) mod every].
Proof.
  intros Hpos bd.
  destruct (loop_inv_run every bd Hpos (barcodes_dict_other samples_dict)
              (barcodes_dict_NoDup samples_dict) seqfile [] _ (init_inv every bd))
    as (st & Hloop & [Hkeys Hn Hfiles Hfl Hbuf]).
  simpl in *. unfold Demultiplex.demultiplex_fastq_every. fold bd.
  rewrite Hloop. simpl. rewrite (writeReads_spec bd _ _ Hkeys). simpl.
  eexists. split; [done|]. simpl. split; [done|]. split.
  - intros sampleName bc Hin.
    rewrite file_of_app, (file_of_written bd _ sampleName bc
                            (barcodes_dict_NoDup samples_dict) Hin).
    by apply Hfiles.
  - by rewrite fmap_app, Hfl, <- Hbuf.
Qed.

(** Distinct keys split a list into the sublists of its elements with
    each key. *)
Lemma partition_by_key {A} (f : A -> str) (ks : list str) (l : list A) :
  NoDup ks -> (forall x, x ∈ l -> f x ∈ ks) ->
  flat_map (fun k => filter (fun x => f x = k) l) ks ≡ₚ l.
Proof.
  revert l. induction ks as [|k ks IH]; intros l Hnd Hall.
  - destruct l as [|x l]; [done|].
    specialize (Hall x ltac:(left)). by apply elem_of_nil in Hall.
  - apply NoDup_cons in Hnd as [Hk Hnd]. cbn [flat_map].
    etrans; [|apply (filter_app_complement (fun x => f x = k) l)].
    apply Permutation_app_head.
    rewrite <- (IH (filter (fun x => f x <> k) l) Hnd).
    + assert (forall ks', (forall k', k' ∈ ks' -> k' <> k) ->
                flat_map (fun k' => filter (fun x => f x = k') l) ks'
                = flat_map (fun k' => filter (fun x => f x = k')
                                        (filter (fun x => f x <> k) l)) ks') as Heq.
      { intros ks'. induction ks' as [|k' ks' IH']; intros Hne; [done|].
        cbn [flat_map]. rewrite IH' by (intros; apply Hne; by right).
        f_equal. symmetry. apply list_filter_filter_l.
        intros x ->. apply Hne. by left. }
      rewrite Heq; [done|]. intros k' Hk' ->. done.
    + intros x [Hx Hin]%list_elem_of_filter.
      apply Hall in Hin. apply elem_of_cons in Hin as [?|?]; done.
Qed.

Lemma bucket_of_in_values (bd : odict str) read :
  Demultiplex.other ∈ od_values bd ->
  Demultiplex.bucket_of bd read ∈ od_values bd.
Proof. intros Ho. unfold Demultiplex.bucket_of. by case_bool_decide. Qed.

Lemma slice_not_other (s : str) : slice_to 4 s <> Demultiplex.other.
Proof.
  intros H. apply (f_equal length) in H. unfold slice_to in H.
  rewrite length_take in H. change (length Demultiplex.other) with 6%nat in H. lia.
Qed.

(** *** The batches of [writeReads] *)

Lemma holds_batch_keys bd dd batch : holds_batch bd dd batch -> keys_ok bd dd.
Proof.
  intros H k. rewrite (H k).
  case_bool_decide; split; intros H'; first [done | by eexists | by destruct H'].
Qed.

Lemma holds_batch_init (bd : odict str) :
  holds_batch bd (Demultiplex.init_demultiplex_dict bd) [].
Proof. intros bc. rewrite init_lookup. by case_bool_decide. Qed.

Lemma holds_batch_cleared bd dd batch :
  holds_batch bd dd batch -> holds_batch bd ((fun _ => []) <$> dd) [].
Proof.
  intros H bc. rewrite lookup_fmap, (H bc). by case_bool_decide.
Qed.

Lemma holds_batch_classify bd dd batch read :
  Demultiplex.other ∈ od_values bd ->
  holds_batch bd dd batch ->
  exists dd', Demultiplex.classify dd read = Some dd'
              /\ holds_batch bd dd' (batch ++ [read]).
Proof.
  intros Ho H.
  destruct (classify_spec bd dd read Ho (holds_batch_keys _ _ _ H))
    as (bucket & Hb & Hc).
  eexists. split; [exact Hc|]. intros bc.
  pose proof (bucket_of_in_values bd read Ho) as Hin.
  rewrite filter_app.
  destruct (decide (Demultiplex.bucket_of bd read = bc)) as [<-|Hne].
  - rewrite lookup_insert_eq, bool_decide_true, filter_cons_True by done.
    rewrite (H _), bool_decide_true in Hb by done. by injection Hb as <-.
  - rewrite lookup_insert_ne, filter_cons_False, (H bc) by done.
    rewrite filter_nil, app_nil_r. done.
Qed.

Section Flushes.

Variable every : Z.
Variable bd : odict str.
Hypothesis every_pos : 0 < every.
Hypothesis bd_other : Demultiplex.other ∈ od_values bd.

(** One iteration keeps the invariant: the read joins the reads left,
    which become a batch when the count reaches a multiple of [every]. *)
Lemma step_flush_inv processed st batches tail read :
  flush_inv every bd processed st batches tail ->
  exists st' batches' tail',
    Demultiplex.step every bd st read = Some st'
    /\ flush_inv every bd (processed ++ [read]) st' batches' tail'.
Proof.
  intros [Hsplit Hfull Htail Hn Hdict Hfl Hw].
  destruct (holds_batch_classify bd _ tail read bd_other Hdict) as (dd' & Hc & Hdd').
  assert (Z.of_nat (length (processed ++ [read])) = Z.of_nat (length processed) + 1)
    as Hlen by (rewrite length_app; simpl; lia).
  assert (Z.of_nat (length (tail ++ [read])) = Z.of_nat (length tail) + 1)
    as Hlent by (rewrite length_app; simpl; lia).
  unfold Demultiplex.step. rewrite Hc. simpl. rewrite Hn.
  destruct (Z.eqb_spec ((Z.of_nat (length processed) + 1) mod every) 0) as [Hm|Hm].
  - destruct (succ_flush every (Z.of_nat (length processed)) every_pos
                ltac:(lia) Hm) as [_ Hfull'].
    rewrite (writeReads_spec bd dd' _ (holds_batch_keys _ _ _ Hdd')). simpl.
    eexists _, (batches ++ [tail ++ [read]]), []. split; [done|].
    split; simpl.
    + rewrite concat_app. simpl. rewrite !app_nil_r, Hsplit.
      by rewrite <- (assoc_L (++)).
    + apply Forall_app. split; [done|]. apply Forall_singleton. lia.
    + by rewrite Hlen, Hm.
    + lia.
    + by apply (holds_batch_cleared bd dd' (tail ++ [read])).
    + apply Forall2_app; [done|]. by apply Forall2_cons.
    + rewrite flat_map_app, Hw. simpl. by rewrite app_nil_r.
  - destruct (succ_no_flush every (Z.of_nat (length processed)) every_pos
                ltac:(lia) Hm) as [_ Hmod].
    eexists _, batches, (tail ++ [read]). split; [done|].
    split; simpl.
    + by rewrite Hsplit, <- (assoc_L (++)).
    + done.
    + rewrite Hlent, Hlen. lia.
    + lia.
    + done.
    + done.
    + done.
Qed.

Lemma loop_flush_inv seqfile processed st batches tail :
  flush_inv every bd processed st batches tail ->
  exists st' batches' tail',
    Demultiplex.loop every bd st seqfile = Some st'
    /\ flush_inv every bd (processed ++ seqfile) st' batches' tail'.
Proof.
  revert processed st batches tail.
  induction seqfile as [|read seqfile IH]; intros processed st batches tail Hinv.
  - exists st, batches, tail. by rewrite app_nil_r.
  - destruct (step_flush_inv processed st batches tail read Hinv)
      as (st1 & batches1 & tail1 & Hstep & Hinv1).
    destruct (IH _ _ _ _ Hinv1) as (st2 & batches2 & tail2 & Hloop & Hinv2).
    exists st2, batches2, tail2. simpl. rewrite Hstep. simpl.
    by rewrite <- (assoc_L (++)) in Hinv2.
Qed.

End Flushes.

Lemma init_flush_inv every (bd : odict str) :
  flush_inv every bd []
    {| Demultiplex.demultiplex_dict := Demultiplex.init_demultiplex_dict bd;
       Demultiplex.nreads := 0;
       Demultiplex.world := {| Demultiplex.written := []; Demultiplex.flushes := [] |} |}
    [] [].
Proof.
  split; simpl; first [done | apply holds_batch_init | by rewrite ?Zmod_0_l].
Qed.

(** The file of an entry of [barcodes_dict] holds the bucket of its
    barcode from every call of [writeReads], in the order of the calls. *)
Lemma file_of_flushes (bd : odict str) (fl : list (gmap str (list Read))) sampleName bc :
  NoDup (od_keys bd) -> (sampleName, bc) ∈ bd ->
  Demultiplex.file_of sampleName (flat_map (flush_records bd) fl)
  = flat_map (fun dd => default [] (dd !! bc)) fl.
Proof.
  intros Hnd Hin. induction fl as [|dd fl IH]; [done|].
  cbn [flat_map]. rewrite file_of_app, IH. f_equal.
  by apply file_of_written.
Qed.

(** The run of [demultiplex_fastq] with the flush threshold [every]: the
    calls of [writeReads] are one per full batch of [every] reads, with
    the buckets of that batch, and a last one with the reads left. *)
Lemma demultiplex_flushes every (seqfile : list Read) (samples_dict : odict SampleEntry) :
  0 < every ->
  let bd := Demultiplex.build_barcodes_dict samples_dict in
  exists st batches tail,
    Demultiplex.demultiplex_fastq_every every seqfile samples_dict = Some st
    /\ seqfile = concat batches ++ tail
    /\ Forall (fun batch => Z.of_nat (length batch) = every) batches
    /\ Z.of_nat (length tail) < every
    /\ Forall2 (holds_batch bd) (Demultiplex.flushes (Demultiplex.world st))
         (batches ++ [tail])
    /\ Demultiplex.written (Demultiplex.world st)
       = flat_map (flush_records bd) (Demultiplex.flushes (Demultiplex.world st)).
Proof.
  intros Hpos bd.
  destruct (loop_flush_inv every bd Hpos (barcodes_dict_other samples_dict)
              seqfile [] _ [] [] (init_flush_inv every bd))
    as (st & batches & tail & Hloop & [Hsplit Hfull Htail Hn Hdict Hfl Hw]).
  simpl in *. unfold Demultiplex.demultiplex_fastq_every. fold bd.
  rewrite Hloop. simpl.
  rewrite (writeReads_spec bd _ _ (holds_batch_keys _ _ _ Hdict)). simpl.
  eexists _, batches, tail. split; [done|]. simpl.
  split; [done|]. split; [done|]. split.
  { rewrite Htail. apply Z.mod_pos_bound. lia. }
  split.
  - apply Forall2_app; [done|]. by apply Forall2_cons.
  - rewrite flat_map_app, Hw. simpl. by rewrite app_nil_r.
Qed.

Lemma length_concat_full every (batches : list (list Read)) :
  Forall (fun batch => Z.of_nat (length batch) = every) batches ->
  Z.of_nat (length (concat batches)) = every * Z.of_nat (length batches).
Proof.
  induction 1 as [|batch batches Hb _ IH]; [simpl; lia|].
  cbn [concat]. rewrite length_app. cbn [length]. lia.
Qed.

Lemma batches_count every (seqfile : list Read) batches tail :
  0 < every ->
  seqfile = concat batches ++ tail ->
  Forall (fun batch => Z.of_nat (length batch) = every) batches ->
  Z.of_nat (length tail) < every ->
  Z.of_nat (length batches) = Z.of_nat (length seqfile) / every
  /\ Z.of_nat (length tail) = Z.of_nat (length seqfile) mod every.
Proof.
  intros Hpos -> Hfull Htail.
  rewrite length_app, Nat2Z.inj_add, (length_concat_full every) by done.
  split.
  - apply (Z.div_unique _ every _ (Z.of_nat (length tail))); lia.
  - apply (Z.mod_unique _ every (Z.of_nat (length batches))); lia.
Qed.

(** C7: for every stream, [writeReads] is called once each time the
    count of processed reads reaches a multiple of 1,000,000, and once
    more after the stream.  With the stream cut into its batches of
    1,000,000 reads and the reads left, the buckets given to the k-th call
    hold the reads of the k-th batch and no others (the buckets are
    cleared after every call), each read in the bucket of its barcode, and
    the buckets of the last call hold the reads left.  Every call appends
    every bucket to the file of every sample of that barcode: the records
    written are the records of the calls, in order.  So exactly 1,000,000
    reads give one call with all of them and an empty last one, and
    1,000,001 reads give one call with 1,000,000 and a last one with 1. *)
Theorem demultiplex_flush_schedule (seqfile : list Read) (samples_dict : odict SampleEntry) :
  let n := Z.of_nat (length seqfile) in
  let bd := Demultiplex.build_barcodes_dict samples_dict in
  exists st batches tail,
    Demultiplex.demultiplex_fastq seqfile samples_dict = Some st
    /\ Demultiplex.nreads st = n
    /\ seqfile = concat batches ++ tail
    /\ Forall (fun batch => Z.of_nat (length batch) = 1000000) batches
    /\ Z.of_nat (length batches) = n / 1000000
    /\ Z.of_nat (length tail) = n mod 1000000
    /\ Forall2 (holds_batch bd) (Demultiplex.flushes (Demultiplex.world st))
         (batches ++ [tail])
    /\ Demultiplex.written (Demultiplex.world st)
       = flat_map (flush_records bd) (Demultiplex.flushes (Demultiplex.world st))
    /\ (forall sampleName bc,
          (sampleName, bc) ∈ bd ->
          Demultiplex.file_of sampleName (Demultiplex.written (Demultiplex.world st))
          = flat_map (fun dd => default [] (dd !! bc))
              (Demultiplex.flushes (Demultiplex.world st)))
    /\ Demultiplex.buffered <$> Demultiplex.flushes (Demultiplex.world st)
       = replicate (Z.to_nat (n / 1000000)) 1000000 ++ [n mod 1000000]
    /\ (n = 1000000 ->
        batches = [seqfile] /\ tail = []
        /\ Demultiplex.buffered <$> Demultiplex.flushes (Demultiplex.world st)
           = [1000000; 0])
    /\ (n = 1000001 ->
        (exists batch read, batches = [batch] /\ tail = [read])
        /\ Demultiplex.buffered <$> Demultiplex.flushes (Demultiplex.world st)
           = [1000000; 1]).
Proof.
  intros n bd.
  destruct (demultiplex_flushes 1000000 seqfile samples_dict ltac:(lia))
    as (st & batches & tail & Hrun & Hsplit & Hfull & Htail & Hfl & Hw).
  destruct (demultiplex_run 1000000 seqfile samples_dict ltac:(lia))
    as (st' & Hrun' & Hn & _ & Hbuf).
  rewrite Hrun in Hrun'. injection Hrun' as <-.
  destruct (batches_count 1000000 seqfile batches tail ltac:(lia) Hsplit Hfull Htail)
    as [Hcount Hrest].
  fold bd in Hfl, Hw. fold n in Hbuf, Hcount, Hrest.
  exists st, batches, tail.
  do 8 (split; [done|]). split; [|split; [done|split]].
  - intros sampleName bc Hin. rewrite Hw.
    by apply file_of_flushes; [apply barcodes_dict_NoDup|].
  - intros Heq. rewrite Hbuf, Heq. rewrite Heq in Hcount, Hrest.
    change (1000000 / 1000000) with 1 in Hcount.
    change (1000000 mod 1000000) with 0 in Hrest.
    destruct tail; [|simpl in Hrest; lia].
    destruct batches as [|batch [|? ?]]; simpl in Hcount; try lia.
    split; [|done]. rewrite Hsplit. simpl. by rewrite !app_nil_r.
  - intros Heq. rewrite Hbuf, Heq. rewrite Heq in Hcount, Hrest.
    change (1000001 / 1000000) with 1 in Hcount.
    change (1000001 mod 1000000) with 1 in Hrest.
    destruct tail as [|read [|? ?]]; simpl in Hrest; try lia.
    destruct batches as [|batch [|? ?]]; simpl in Hcount; try lia.
    split; [|done]. by exists batch, read.
Qed.

(** The same schedule with the threshold 3, by running the loop. *)
Example flush_schedule_every_3 :
  let r := mk_read "r" "ACGTAAAA" in
  let samples := [(u "s1", {| entry_name := None; barcode := u "ACGT" |})] in
  ((fun st => Demultiplex.buffered <$> Demultiplex.flushes (Demultiplex.world st))
     <$> Demultiplex.demultiplex_fastq_every 3 [r; r; r] samples) = Some [3; 0]
  /\ ((fun st => Demultiplex.buffered <$> Demultiplex.flushes (Demultiplex.world st))
        <$> Demultiplex.demultiplex_fastq_every 3 [r; r; r; r] samples) = Some [3; 1]
  /\ ((fun st => Demultiplex.buffered <$> Demultiplex.flushes (Demultiplex.world st))
        <$> Demultiplex.demultiplex_fastq_every 3 [] samples) = Some [0].
Proof. repeat split; vm_compute; reflexivity. Qed.

(** The records written with the threshold 2, by running the loop: the
    first call of [writeReads] writes the first two reads, the last call
    the third. *)
Example flush_writes_every_2 :
  let r1 := mk_read "r1" "ACGTAAAA" in
  let r2 := mk_read "r2" "TTTTAAAA" in
  let r3 := mk_read "r3" "ACGTCCCC" in
  let samples := [(u "s1", {| entry_name := None; barcode := u "ACGT" |})] in
  ((fun st => (Demultiplex.written (Demultiplex.world st),
               (fun dd => (dd !! u "ACGT", dd !! u "_other"))
                 <$> Demultiplex.flushes (Demultiplex.world st)))
     <$> Demultiplex.demultiplex_fastq_every 2 [r1; r2; r3] samples)
  = Some ([(u "s1", r1); (u "_other", r2); (u "s1", r3)],
          [(Some [r1], Some [r2]); (Some [r3], Some [])]).
Proof. vm_compute. reflexivity. Qed.

Lemma od_set_fresh {V} (k : str) (v : V) (d : odict V) :
  k ∉ od_keys d -> od_set k v d = d ++ [(k, v)].
Proof.
  unfold od_keys. induction d as [|[k' v'] d IH]; intros Hk; [done|].
  rewrite fmap_cons in Hk. apply not_elem_of_cons in Hk as [Hne Hk].
  simpl. destruct (decide (k' = k)) as [->|_]; [done|].
  by rewrite (IH Hk).
Qed.

Lemma samples_fold_explicit (samples : odict SampleEntry) :
  NoDup (od_keys samples) ->
  foldl (fun bd '(sample, e) => od_set sample (barcode e) bd) [] samples
  = (fun ne : str * SampleEntry => (ne.1, barcode ne.2)) <$> samples.
Proof.
  induction samples as [|[sample e] samples IH] using rev_ind; [done|].
  unfold od_keys in *. rewrite fmap_app. simpl. intros Hnd.
  apply NoDup_app in Hnd as (Hnd & Hfresh & _).
  rewrite samples_fold_snoc, (IH Hnd), fmap_app. simpl.
  apply od_set_fresh. unfold od_keys. rewrite <- list_fmap_compose.
  intros Hin. apply (Hfresh sample); [|by left]. exact Hin.
Qed.

Lemma barcodes_dict_explicit (samples : odict SampleEntry) :
  NoDup (od_keys samples) -> Demultiplex.other ∉ od_keys samples ->
  Demultiplex.build_barcodes_dict samples
  = ((fun ne : str * SampleEntry => (ne.1, barcode ne.2)) <$> samples)
    ++ [(Demultiplex.other, Demultiplex.other)].
Proof.
  intros Hnd Hother. unfold Demultiplex.build_barcodes_dict.
  rewrite (samples_fold_explicit samples Hnd).
  apply od_set_fresh. unfold od_keys. by rewrite <- list_fmap_compose.
Qed.

Lemma flat_map_fmap {A B C} (h : A -> B) (g : B -> list C) (l : list A) :
  flat_map g (h <$> l) = flat_map (fun x => g (h x)) l.
Proof. induction l as [|x l IH]; [done|]. rewrite fmap_cons. simpl. by rewrite IH. Qed.

Lemma flat_map_ext_elem {A B} (f g : A -> list B) (l : list A) :
  (forall x, x ∈ l -> f x = g x) -> flat_map f l = flat_map g l.
Proof.
  induction l as [|x l IH]; intros Hfg; [done|].
  simpl. rewrite (Hfg x) by left. rewrite IH; [done|].
  intros y Hy. apply Hfg. by right.
Qed.

(** C4: when the names of the samples mapping are distinct from
    [_other], its barcodes are pairwise distinct and none of them is the
    string [_other], the run returns, the file of every sample holds, in
    input order, the reads whose first four characters are its barcode,
    the file [_other] holds the other reads in input order, and the files
    together hold the reads of the stream, each once. *)
Theorem demultiplex_partitions (seqfile : list Read) (samples_dict : odict SampleEntry) :
  NoDup (od_keys samples_dict) ->
  NoDup (barcode <$> od_values samples_dict) ->
  Demultiplex.other ∉ od_keys samples_dict ->
  Demultiplex.other ∉ barcode <$> od_values samples_dict ->
  exists st,
    Demultiplex.demultiplex_fastq seqfile samples_dict = Some st
    /\ (forall sampleName e,
          (sampleName, e) ∈ samples_dict ->
          Demultiplex.file_of sampleName (Demultiplex.written (Demultiplex.world st))
          = filter (fun r => slice_to 4 (sequence r) = barcode e) seqfile)
    /\ Demultiplex.file_of Demultiplex.other (Demultiplex.written (Demultiplex.world st))
       = filter (fun r => slice_to 4 (sequence r) ∉ barcode <$> od_values samples_dict)
           seqfile
    /\ flat_map
         (fun sampleName =>
            Demultiplex.file_of sampleName (Demultiplex.written (Demultiplex.world st)))
         (od_keys samples_dict ++ [Demultiplex.other])
       ≡ₚ seqfile.
Proof.
  intros Hnames Hbarcodes Hother_name Hother_bc.
  destruct (demultiplex_run 1000000 seqfile samples_dict ltac:(lia))
    as (st & Hrun & _ & Hfiles & _).
  set (bd := Demultiplex.build_barcodes_dict samples_dict) in *.
  pose proof (barcodes_dict_explicit samples_dict Hnames Hother_name) as Hbd.
  fold bd in Hbd.
  assert (od_values bd = (barcode <$> od_values samples_dict) ++ [Demultiplex.other])
    as Hvalues.
  { unfold od_values. rewrite Hbd, fmap_app, <- !list_fmap_compose. done. }
  assert (od_keys bd = od_keys samples_dict ++ [Demultiplex.other]) as Hkeys.
  { unfold od_keys. rewrite Hbd, fmap_app, <- !list_fmap_compose. done. }
  exists st. split; [done|]. split; [|split].
  - intros sampleName e Hin.
    assert (barcode e ∈ barcode <$> od_values samples_dict) as Hbc.
    { unfold od_values. rewrite <- list_fmap_compose.
      apply list_elem_of_fmap. by exists (sampleName, e). }
    rewrite (Hfiles sampleName (barcode e)).
    + apply list_filter_iff. intros r. unfold Demultiplex.bucket_of.
      case_bool_decide as Hv; [done|]. split.
      * intros Heq. exfalso. apply Hother_bc. by rewrite Heq.
      * intros Heq. exfalso. apply Hv. rewrite Hvalues, Heq.
        apply elem_of_app. by left.
    + rewrite Hbd. apply elem_of_app. left.
      apply list_elem_of_fmap. by exists (sampleName, e).
  - rewrite (Hfiles Demultiplex.other Demultiplex.other).
    + apply list_filter_iff. intros r. unfold Demultiplex.bucket_of.
      rewrite Hvalues. case_bool_decide as Hv.
      * split; [intros Heq; by apply slice_not_other in Heq|].
        intros Hnot. exfalso.
        apply elem_of_app in Hv as [Hv|Hv%list_elem_of_singleton]; [done|].
        by apply slice_not_other in Hv.
      * split; [|done]. intros _ Hin. apply Hv, elem_of_app. by left.
    + rewrite Hbd. apply elem_of_app. right. by left.
  - rewrite <- Hkeys. unfold od_keys. rewrite flat_map_fmap.
    rewrite (flat_map_ext_elem _
               (fun item : str * str =>
                  filter (fun r => Demultiplex.bucket_of bd r = item.2) seqfile)).
    + etrans;
        [|apply (partition_by_key (Demultiplex.bucket_of bd) (od_values bd) seqfile)].
      * unfold od_values. by rewrite flat_map_fmap.
      * rewrite Hvalues.
        apply NoDup_app. split; [done|]. split; [|apply NoDup_singleton].
        intros x Hx ->%list_elem_of_singleton. done.
      * intros r _. apply bucket_of_in_values, barcodes_dict_other.
    + intros [n b] Hin. by apply Hfiles.
Qed.

Lemma demultiplex_partitions_witness :
  let samples := [(u "s1", {| entry_name := None; barcode := u "ACGT" |});
                  (u "s2", {| entry_name := None; barcode := u "TTTT" |})] in
  let seqfile := [mk_read "a" "ACGTAA"; mk_read "b" "TTTTAA"; mk_read "c" "GGGGAA";
                  mk_read "d" "ACGTCC"; mk_read "e" "AC"] in
  NoDup (od_keys samples)
  /\ NoDup (barcode <$> od_values samples)
  /\ (Demultiplex.other ∉ od_keys samples)
  /\ (Demultiplex.other ∉ barcode <$> od_values samples)
  /\ exists st,
       Demultiplex.demultiplex_fastq seqfile samples = Some st
       /\ Demultiplex.file_of (u "s1") (Demultiplex.written (Demultiplex.world st))
          = [mk_read "a" "ACGTAA"; mk_read "d" "ACGTCC"]
       /\ Demultiplex.file_of Demultiplex.other
            (Demultiplex.written (Demultiplex.world st))
          = [mk_read "c" "GGGGAA"; mk_read "e" "AC"].
Proof.
  assert (NoDup (od_keys [(u "s1", {| entry_name := None; barcode := u "ACGT" |});
                          (u "s2", {| entry_name := None; barcode := u "TTTT" |})]))
    as H1 by (apply (bool_decide_unpack _); vm_compute; exact I).
  assert (NoDup (barcode <$> od_values
                   [(u "s1", {| entry_name := None; barcode := u "ACGT" |});
                    (u "s2", {| entry_name := None; barcode := u "TTTT" |})]))
    as H2 by (apply (bool_decide_unpack _); vm_compute; exact I).
  assert (Demultiplex.other
            ∉ od_keys [(u "s1", {| entry_name := None; barcode := u "ACGT" |});
                       (u "s2", {| entry_name := None; barcode := u "TTTT" |})])
    as H3 by (apply (bool_decide_unpack _); vm_compute; exact I).
  assert (Demultiplex.other
            ∉ barcode <$> od_values
                [(u "s1", {| entry_name := None; barcode := u "ACGT" |});
                 (u "s2", {| entry_name := None; barcode := u "TTTT" |})])
    as H4 by (apply (bool_decide_unpack _); vm_compute; exact I).
  do 4 (split; [assumption|]).
  destruct (demultiplex_partitions
              [mk_read "a" "ACGTAA"; mk_read "b" "TTTTAA"; mk_read "c" "GGGGAA";
               mk_read "d" "ACGTCC"; mk_read "e" "AC"]
              [(u "s1", {| entry_name := None; barcode := u "ACGT" |});
               (u "s2", {| entry_name := None; barcode := u "TTTT" |})]
              H1 H2 H3 H4) as (st & Hrun & Hsample & Hother & _).
  exists st. split; [exact Hrun|]. split.
  - rewrite (Hsample (u "s1") {| entry_name := None; barcode := u "ACGT" |});
      [vm_compute; reflexivity|left].
  - rewrite Hother. vm_compute. reflexivity.
Defined.

(** C4, the claim as stated fails on mappings that use the string
    [_other].  With the barcode [_other] (distinct from every other
    barcode) the bucket of unmatched reads is written to the file of the
    sample and to the file [_other]: the read is written twice.  With a
    sample named [_other] the entry of [barcodes_dict] is overwritten, no
    bucket is made for its barcode ACGT, and a read that starts with ACGT
    is written to [_other] together with the unmatched read. *)
Lemma classifier_other_collision :
  let r1 := mk_read "r1" "ACGTAAAA" in
  let r2 := mk_read "r2" "GGGGAAAA" in
  let by_barcode := [(u "s1", {| entry_name := None; barcode := u "_other" |})] in
  let by_name := [(u "_other", {| entry_name := None; barcode := u "ACGT" |})] in
  (fun st => Demultiplex.written (Demultiplex.world st))
    <$> Demultiplex.demultiplex_fastq [r1] by_barcode
  = Some [(u "s1", r1); (u "_other", r1)]
  /\ (fun st => Demultiplex.written (Demultiplex.world st))
       <$> Demultiplex.demultiplex_fastq [r1; r2] by_name
     = Some [(u "_other", r1); (u "_other", r2)].
Proof. split; vm_compute; reflexivity. Qed.

Lemma write_buckets_None (dd : gmap str (list Read)) (items : odict str) :
  foldl (Demultiplex.write_bucket dd) None items = None.
Proof. induction items as [|item items IH]; [done|]. simpl. exact IH. Qed.

Lemma write_buckets_Some (dd : gmap str (list Read)) (items : odict str) acc res :
  foldl (Demultiplex.write_bucket dd) (Some acc) items = Some res ->
  res = acc ++ flat_map (fun item : str * str =>
                           (fun r => (item.1, r)) <$> default [] (dd !! item.2)) items.
Proof.
  revert acc. induction items as [|item items IH]; intros acc.
  - simpl. intros [= <-]. by rewrite app_nil_r.
  - cbn [foldl flat_map]. unfold Demultiplex.write_bucket at 2. simpl.
    destruct (dd !! item.2) as [bucket|]; simpl.
    + intros ->%IH. by rewrite <- (assoc_L (++)).
    + by rewrite write_buckets_None.
Qed.

Lemma writeReads_file (bd : odict str) (dd : gmap str (list Read)) w w' sampleName bc :
  NoDup (od_keys bd) -> (sampleName, bc) ∈ bd ->
  Demultiplex.writeReads dd bd w = Some w' ->
  Demultiplex.file_of sampleName (Demultiplex.written w')
  = Demultiplex.file_of sampleName (Demultiplex.written w) ++ default [] (dd !! bc).
Proof.
  intros Hnd Hin. unfold Demultiplex.writeReads.
  destruct (foldl _ _ bd) as [res|] eqn:Hres; [|done]. simpl.
  intros [= <-]. simpl. apply write_buckets_Some in Hres as ->.
  by rewrite file_of_app, (file_of_written bd dd sampleName bc Hnd Hin).
Qed.

(** C9: when two distinct sample names, neither of them [_other], map
    to the same barcode, every call of [writeReads] appends the bucket of
    that barcode to the file of each of the two, and after the run each of
    the two files holds the reads of that bucket, among them every read
    whose first four characters are the barcode. *)
Theorem shared_barcode_written_to_each_sample
    (seqfile : list Read) (samples_dict : odict SampleEntry)
    (name1 name2 : str) (e1 e2 : SampleEntry) :
  NoDup (od_keys samples_dict) ->
  (name1, e1) ∈ samples_dict -> (name2, e2) ∈ samples_dict ->
  name1 <> name2 -> barcode e1 = barcode e2 ->
  name1 <> Demultiplex.other -> name2 <> Demultiplex.other ->
  let bd := Demultiplex.build_barcodes_dict samples_dict in
  (forall dd w w',
      Demultiplex.writeReads dd bd w = Some w' ->
      Demultiplex.file_of name1 (Demultiplex.written w')
      = Demultiplex.file_of name1 (Demultiplex.written w)
        ++ default [] (dd !! barcode e1)
      /\ Demultiplex.file_of name2 (Demultiplex.written w')
         = Demultiplex.file_of name2 (Demultiplex.written w)
           ++ default [] (dd !! barcode e1))
  /\ exists st,
       Demultiplex.demultiplex_fastq seqfile samples_dict = Some st
       /\ Demultiplex.file_of name1 (Demultiplex.written (Demultiplex.world st))
          = filter (fun r => Demultiplex.bucket_of bd r = barcode e1) seqfile
       /\ Demultiplex.file_of name2 (Demultiplex.written (Demultiplex.world st))
          = filter (fun r => Demultiplex.bucket_of bd r = barcode e1) seqfile
       /\ (forall read,
             read ∈ seqfile -> slice_to 4 (sequence read) = barcode e1 ->
             read ∈ Demultiplex.file_of name1 (Demultiplex.written (Demultiplex.world st))
             /\ read ∈ Demultiplex.file_of name2
                         (Demultiplex.written (Demultiplex.world st))).
Proof.
  intros Hnames Hin1 Hin2 Hne Hbc Hn1 Hn2 bd.
  assert ((name1, barcode e1) ∈ bd) as Hbd1.
  { apply barcodes_dict_elem; [done|]. right. split; [done|]. by exists e1. }
  assert ((name2, barcode e1) ∈ bd) as Hbd2.
  { apply barcodes_dict_elem; [done|]. right. split; [done|]. by exists e2. }
  split.
  - intros dd w w' Hw. split;
      apply (writeReads_file bd dd w w' _ _ (barcodes_dict_NoDup samples_dict));
      done.
  - destruct (demultiplex_run 1000000 seqfile samples_dict ltac:(lia))
      as (st & Hrun & _ & Hfiles & _).
    fold bd in Hfiles. exists st. split; [done|].
    rewrite (Hfiles name1 _ Hbd1), (Hfiles name2 _ Hbd2).
    split; [done|]. split; [done|].
    intros read Hread Hslice.
    assert (read ∈ filter (fun r => Demultiplex.bucket_of bd r = barcode e1) seqfile)
      as Hf; [|done].
    apply list_elem_of_filter. split; [|done].
    unfold Demultiplex.bucket_of. rewrite Hslice, bool_decide_true; [done|].
    unfold od_values. apply list_elem_of_fmap. by exists (name1, barcode e1).
Qed.

Lemma shared_barcode_written_to_each_sample_witness :
  let samples := [(u "s1", {| entry_name := None; barcode := u "ACGT" |});
                  (u "s2", {| entry_name := None; barcode := u "ACGT" |})] in
  let r1 := mk_read "r1" "ACGTAAAA" in
  let r2 := mk_read "r2" "GGGGAAAA" in
  NoDup (od_keys samples)
  /\ u "s1" <> u "s2"
  /\ u "s1" <> Demultiplex.other /\ u "s2" <> Demultiplex.other
  /\ exists st,
       Demultiplex.demultiplex_fastq [r1; r2] samples = Some st
       /\ Demultiplex.file_of (u "s1") (Demultiplex.written (Demultiplex.world st)) = [r1]
       /\ Demultiplex.file_of (u "s2") (Demultiplex.written (Demultiplex.world st)) = [r1].
Proof.
  assert (NoDup (od_keys [(u "s1", {| entry_name := None; barcode := u "ACGT" |});
                          (u "s2", {| entry_name := None; barcode := u "ACGT" |})]))
    as H1 by (apply (bool_decide_unpack _); vm_compute; exact I).
  assert (u "s1" <> u "s2") as H2 by (vm_compute; discriminate).
  assert (u "s1" <> Demultiplex.other) as H3 by (vm_compute; discriminate).
  assert (u "s2" <> Demultiplex.other) as H4 by (vm_compute; discriminate).
  do 4 (split; [assumption|]).
  destruct (shared_barcode_written_to_each_sample
              [mk_read "r1" "ACGTAAAA"; mk_read "r2" "GGGGAAAA"]
              [(u "s1", {| entry_name := None; barcode := u "ACGT" |});
               (u "s2", {| entry_name := None; barcode := u "ACGT" |})]
              (u "s1") (u "s2")
              {| entry_name := None; barcode := u "ACGT" |}
              {| entry_name := None; barcode := u "ACGT" |}
              H1 ltac:(left) ltac:(right; left) H2 eq_refl H3 H4)
    as (_ & st & Hrun & Hf1 & Hf2 & _).
  exists st. split; [exact Hrun|].
  rewrite Hf1, Hf2. split; vm_compute; reflexivity.
Defined.

(** C9, the claim as stated fails when one of the two names is
    [_other]: its entry of [barcodes_dict] is overwritten with the bucket
    of unmatched reads, and the read that starts with the shared barcode
    is written to the file of the other sample only. *)
Lemma shared_barcode_with_other_name :
  let r1 := mk_read "r1" "ACGTAAAA" in
  let samples := [(u "_other", {| entry_name := None; barcode := u "ACGT" |});
                  (u "s2", {| entry_name := None; barcode := u "ACGT" |})] in
  (fun st => Demultiplex.written (Demultiplex.world st))
    <$> Demultiplex.demultiplex_fastq [r1] samples
  = Some [(u "s2", r1)]
  /\ (fun st => Demultiplex.file_of (u "_other")
                  (Demultiplex.written (Demultiplex.world st)))
       <$> Demultiplex.demultiplex_fastq [r1] samples
     = Some [].
Proof. split; vm_compute; reflexivity. Qed.

(** The classifier on a small stream with a flush after every second
    read: the files keep the input order across the flushes. *)
Example demultiplex_small_run :
  let samples := [(u "s1", {| entry_name := None; barcode := u "ACGT" |});
                  (u "s2", {| entry_name := None; barcode := u "TTTT" |})] in
  let a := mk_read "a" "ACGTAA" in
  let b := mk_read "b" "TTTTAA" in
  let c := mk_read "c" "GGGGAA" in
  let d := mk_read "d" "ACGTCC" in
  let e := mk_read "e" "AC" in
  (fun st => Demultiplex.written (Demultiplex.world st))
    <$> Demultiplex.demultiplex_fastq_every 2 [a; b; c; d; e] samples
  = Some [(u "s1", a); (u "s2", b); (u "s1", d); (u "_other", c); (u "_other", e)].
Proof. vm_compute. reflexivity. Qed.

(** * Further properties *)

(** ** The sample table loaders *)

Lemma od_mem_spec {V} (k : str) (d : odict V) : od_mem k d = true <-> k ∈ od_keys d.
Proof.
  unfold od_mem. rewrite existsb_exists. split.
  - intros (k' & Hin & Hk). apply bool_decide_eq_true in Hk as ->.
    by apply list_elem_of_In.
  - intros Hin. exists k. split; [by apply list_elem_of_In|].
    by apply bool_decide_eq_true.
Qed.

Lemma data_rows_cons_comment line rows :
  is_comment line = true -> data_rows (line :: rows) = data_rows rows.
Proof. intros H. unfold data_rows. simpl. by rewrite H. Qed.

Lemma data_rows_cons_data line rows :
  is_comment line = false -> data_rows (line :: rows) = line :: data_rows rows.
Proof. intros H. unfold data_rows. simpl. by rewrite H. Qed.

Section LoaderFacts.

Variable isalnum : N -> bool.
Variable upper : str -> str.

Lemma sample_prep_rows_returned (rows : list (list str)) (d0 d : odict SampleEntry) :
  NoDup (od_keys d0) ->
  Loader.sample_prep_rows isalnum upper rows d0 = Returned d
  <-> Forall (fun line => (2 <= length line)%nat) (data_rows rows)
      /\ NoDup (od_keys d0 ++ od_keys (row_entry isalnum upper <$> data_rows rows))
      /\ d = d0 ++ (row_entry isalnum upper <$> data_rows rows).
Proof.
  revert d0. induction rows as [|line rows IH]; intros d0 Hd0.
  - simpl. rewrite !app_nil_r. split.
    + intros [= <-]. done.
    + intros (_ & _ & ->). done.
  - cbn [Loader.sample_prep_rows].
    destruct (line !! 0%nat) as [col0|] eqn:H0.
    2:{ rewrite data_rows_cons_data by (unfold is_comment; by rewrite H0).
        split; [done|]. intros (Hall & _). apply Forall_cons in Hall as [Hlen _].
        destruct line; simpl in *; [lia|done]. }
    destruct (startswith_chr chr_hash col0) eqn:Hc.
    { rewrite data_rows_cons_comment by (unfold is_comment; by rewrite H0).
      by apply IH. }
    rewrite data_rows_cons_data by (unfold is_comment; by rewrite H0).
    destruct (line !! 1%nat) as [col1|] eqn:H1.
    2:{ split; [done|]. intros (Hall & _). apply Forall_cons in Hall as [Hlen _].
        apply lookup_ge_None in H1. lia. }
    rewrite barcode_never_in_values.
    assert (row_entry isalnum upper line
            = (Utils.convert_to_filename isalnum col0,
               {| entry_name := Some (Utils.convert_to_filename isalnum col0);
                  barcode := upper col1 |})) as Hrow.
    { unfold row_entry. by rewrite H0, H1. }
    rewrite fmap_cons, Hrow. unfold od_keys at 2. rewrite fmap_cons. cbn [fst].
    fold (od_keys (row_entry isalnum upper <$> data_rows rows)).
    destruct (od_mem _ d0) eqn:Hmem.
    { split; [done|]. intros (_ & Hnd & _). exfalso.
      apply od_mem_spec in Hmem. apply NoDup_app in Hnd as (_ & Hdisj & _).
      apply (Hdisj _ Hmem). by left. }
    assert (Utils.convert_to_filename isalnum col0 ∉ od_keys d0) as Hfresh.
    { intros Hin%od_mem_spec. congruence. }
    rewrite (od_set_fresh _ _ d0 Hfresh).
    rewrite IH.
    + unfold od_keys at 1. rewrite fmap_app. cbn [fmap list_fmap fst].
      fold (od_keys d0). rewrite <- !(assoc_L (++)). cbn [app].
      rewrite Forall_cons. split.
      * intros (Hall & Hnd & ->). repeat split; try done.
        apply lookup_lt_Some in H1. lia.
      * intros ((_ & Hall) & Hnd & ->). done.
    + unfold od_keys. rewrite fmap_app. apply NoDup_app. split; [done|].
      split; [|apply NoDup_singleton].
      intros x Hx ->%list_elem_of_singleton. done.
Qed.

(** X1: [sample_prep] returns exactly when every row that is not a
    comment has two columns and the normalized names of these rows are
    pairwise distinct; the mapping then lists these rows in file order,
    each under its normalized name with its barcode in upper case, so its
    size is the number of rows that are not comments. *)
Theorem sample_prep_returns_iff (rows : list (list str)) (d : odict SampleEntry) :
  Loader.sample_prep isalnum upper rows = Returned d
  <-> Forall (fun line => (2 <= length line)%nat) (data_rows rows)
      /\ NoDup (od_keys (row_entry isalnum upper <$> data_rows rows))
      /\ d = row_entry isalnum upper <$> data_rows rows.
Proof.
  unfold Loader.sample_prep.
  rewrite (sample_prep_rows_returned rows [] d) by apply NoDup_nil_2. done.
Qed.


Lemma sample_prep_rows_comments (rows : list (list str)) (d0 : odict SampleEntry) :
  Loader.sample_prep_rows isalnum upper rows d0
  = Loader.sample_prep_rows isalnum upper (data_rows rows) d0.
Proof.
  revert d0. induction rows as [|line rows IH]; intros d0; [done|].
  destruct (is_comment line) eqn:Hc.
  - rewrite data_rows_cons_comment by done. rewrite <- IH.
    unfold is_comment in Hc. cbn [Loader.sample_prep_rows].
    destruct (line !! 0%nat); [|done]. by rewrite Hc.
  - rewrite data_rows_cons_data by done.
    unfold is_comment in Hc. cbn [Loader.sample_prep_rows].
    destruct (line !! 0%nat); [|done]. rewrite Hc.
    destruct (line !! 1%nat); [|done].
    destruct (od_mem _ d0); [done|]. destruct (py_in _ _); [done|]. apply IH.
Qed.

Lemma tab_delimited_rows_comments (rows : list (list str)) (d0 : odict SampleEntry) :
  Loader.tab_delimited_rows isalnum upper rows d0
  = Loader.tab_delimited_rows isalnum upper (data_rows rows) d0.
Proof.
  revert d0. induction rows as [|line rows IH]; intros d0; [done|].
  destruct (is_comment line) eqn:Hc.
  - rewrite data_rows_cons_comment by done. rewrite <- IH.
    unfold is_comment in Hc. cbn [Loader.tab_delimited_rows].
    destruct (line !! 0%nat); [|done]. by rewrite Hc.
  - rewrite data_rows_cons_data by done.
    unfold is_comment in Hc. cbn [Loader.tab_delimited_rows].
    destruct (line !! 0%nat); [|done]. rewrite Hc.
    destruct (line !! 1%nat); [|done].
    destruct (negb (od_mem _ d0) && _); [apply IH|done].
Qed.

(** X2: comment lines do not matter: both loaders end the same way, and
    with the same mapping, on a table and on the table without its comment
    lines. *)
Theorem loaders_ignore_comments (rows : list (list str)) :
  Loader.sample_prep isalnum upper rows
  = Loader.sample_prep isalnum upper (data_rows rows)
  /\ Loader.tab_delimited_samples_to_dict isalnum upper rows
     = Loader.tab_delimited_samples_to_dict isalnum upper (data_rows rows).
Proof.
  split.
  - apply sample_prep_rows_comments.
  - apply tab_delimited_rows_comments.
Qed.

Lemma without_names_keys (d : odict SampleEntry) : od_keys (without_names d) = od_keys d.
Proof. unfold od_keys, without_names. by rewrite <- list_fmap_compose. Qed.

Lemma without_names_mem k (d : odict SampleEntry) :
  od_mem k (without_names d) = od_mem k d.
Proof. unfold od_mem. by rewrite without_names_keys. Qed.

Lemma without_names_set k e (d : odict SampleEntry) :
  od_set k {| entry_name := None; barcode := barcode e |} (without_names d)
  = without_names (od_set k e d).
Proof.
  unfold without_names. induction d as [|[k' e'] d IH]; [done|].
  rewrite fmap_cons. cbn [od_set fst snd].
  destruct (decide (k' = k)) as [->|Hne]; [done|].
  rewrite fmap_cons. cbn [fst snd]. by rewrite IH.
Qed.

(** The two loaders end the same way on every table. *)
Lemma loaders_rows_agree (rows : list (list str)) (d0 : odict SampleEntry) :
  match Loader.sample_prep_rows isalnum upper rows d0 with
  | Returned d =>
      Loader.tab_delimited_rows isalnum upper rows (without_names d0)
      = Returned (without_names d)
  | Exited _ _ =>
      exists message,
        Loader.tab_delimited_rows isalnum upper rows (without_names d0)
        = Raised (IOError message)
  | Raised e =>
      Loader.tab_delimited_rows isalnum upper rows (without_names d0) = Raised e
  end.
Proof.
  revert d0. induction rows as [|line rows IH]; intros d0; [done|].
  cbn [Loader.sample_prep_rows Loader.tab_delimited_rows].
  destruct (line !! 0%nat) as [col0|]; [|done].
  destruct (startswith_chr chr_hash col0); [apply IH|].
  destruct (line !! 1%nat) as [col1|]; [|done].
  rewrite !barcode_never_in_values, without_names_mem.
  destruct (od_mem _ d0); simpl; [by eexists|].
  rewrite (without_names_set _
             {| entry_name := Some (Utils.convert_to_filename isalnum col0);
                barcode := upper col1 |} d0).
  apply IH.
Qed.

(** X3: the two loaders agree on every table: when [sample_prep] returns
    a mapping, [tab_delimited_samples_to_dict] returns the same names and
    barcodes in the same order; when [sample_prep] exits with a message,
    [tab_delimited_samples_to_dict] raises [IOError]; when one raises
    [IndexError] on a short row, so does the other. *)
Theorem loaders_agree (rows : list (list str)) :
  match Loader.sample_prep isalnum upper rows with
  | Returned d =>
      Loader.tab_delimited_samples_to_dict isalnum upper rows
      = Returned (without_names d)
  | Exited _ _ =>
      exists message,
        Loader.tab_delimited_samples_to_dict isalnum upper rows
        = Raised (IOError message)
  | Raised e =>
      Loader.tab_delimited_samples_to_dict isalnum upper rows = Raised e
  end.
Proof. apply (loaders_rows_agree rows []). Qed.

Lemma sample_prep_rows_exits (rows : list (list str)) (d0 : odict SampleEntry)
    (before : list str) (s : str) (after : list str) :
  Forall (fun line => (2 <= length line)%nat) (data_rows rows) ->
  od_keys (row_entry isalnum upper <$> data_rows rows) = before ++ s :: after ->
  NoDup (od_keys d0 ++ before) ->
  s ∈ od_keys d0 ++ before ->
  Loader.sample_prep_rows isalnum upper rows d0
  = Exited 1 (u "Error: redundant sample identifier " ++ s).
Proof.
  revert d0 before. induction rows as [|line rows IH]; intros d0 before Hall Hnames Hnd Hs.
  - simpl in Hnames. by destruct before.
  - destruct (is_comment line) eqn:Hc.
    + rewrite data_rows_cons_comment in Hall, Hnames by done.
      rewrite sample_prep_rows_comments, data_rows_cons_comment by done.
      rewrite <- sample_prep_rows_comments. by apply (IH d0 before).
    + rewrite data_rows_cons_data in Hall, Hnames by done.
      apply Forall_cons in Hall as [Hlen Hall].
      unfold is_comment in Hc. cbn [Loader.sample_prep_rows].
      destruct (line !! 0%nat) as [col0|] eqn:H0;
        [|apply lookup_ge_None in H0; lia].
      rewrite Hc.
      destruct (line !! 1%nat) as [col1|] eqn:H1;
        [|apply lookup_ge_None in H1; lia].
      rewrite barcode_never_in_values.
      rewrite fmap_cons in Hnames. unfold od_keys in Hnames at 1.
      rewrite fmap_cons in Hnames. unfold row_entry in Hnames at 1.
      rewrite H0 in Hnames. cbn [fst default] in Hnames.
      fold (od_keys (row_entry isalnum upper <$> data_rows rows)) in Hnames.
      destruct before as [|b before].
      * injection Hnames as -> _. rewrite app_nil_r in Hs.
        apply od_mem_spec in Hs. by rewrite Hs.
      * injection Hnames as -> Hnames.
        assert (b ∉ od_keys d0) as Hfresh.
        { intros Hin. apply NoDup_app in Hnd as (_ & Hdisj & _).
          apply (Hdisj b Hin). by left. }
        destruct (od_mem b d0) eqn:Hmem; [by apply od_mem_spec in Hmem|].
        rewrite (od_set_fresh _ _ d0 Hfresh).
        apply (IH _ before); [done|done| |].
        -- unfold od_keys. rewrite fmap_app. cbn [fmap list_fmap fst].
           fold (od_keys d0). by rewrite <- (assoc_L (++)).
        -- unfold od_keys. rewrite fmap_app. cbn [fmap list_fmap fst].
           fold (od_keys d0). by rewrite <- (assoc_L (++)).
Qed.

(** X4: in a table whose rows other than comments have two columns, the
    first row whose normalized name repeats the name of an earlier row
    stops the loading: [sample_prep] exits with status 1 and the message
    that names it, and [tab_delimited_samples_to_dict] raises [IOError]. *)
Theorem loaders_report_first_repeated_name
    (rows : list (list str)) (before : list str) (s : str) (after : list str) :
  Forall (fun line => (2 <= length line)%nat) (data_rows rows) ->
  od_keys (row_entry isalnum upper <$> data_rows rows) = before ++ s :: after ->
  NoDup before ->
  s ∈ before ->
  Loader.sample_prep isalnum upper rows
  = Exited 1 (u "Error: redundant sample identifier " ++ s)
  /\ exists message,
       Loader.tab_delimited_samples_to_dict isalnum upper rows
       = Raised (IOError message).
Proof.
  intros Hall Hnames Hnd Hs.
  assert (Loader.sample_prep isalnum upper rows
          = Exited 1 (u "Error: redundant sample identifier " ++ s)) as Hexit.
  { apply (sample_prep_rows_exits rows [] before s after); done. }
  split; [done|].
  pose proof (loaders_rows_agree rows []) as Hagree.
  unfold Loader.sample_prep in Hexit. by rewrite Hexit in Hagree.
Qed.

End LoaderFacts.

Lemma loaders_report_first_repeated_name_witness :
  let rows := [[u "sample 1"; u "ACGT"]; [u "# note"]; [u "sample_1"; u "TTTT"]] in
  Forall (fun line => (2 <= length line)%nat) (data_rows rows)
  /\ od_keys (row_entry Utils.ascii_isalnum Loader.ascii_upper <$> data_rows rows)
     = [u "sample_1"] ++ u "sample_1" :: []
  /\ NoDup [u "sample_1"]
  /\ u "sample_1" ∈ [u "sample_1"]
  /\ Loader.sample_prep Utils.ascii_isalnum Loader.ascii_upper rows
     = Exited 1 (u "Error: redundant sample identifier " ++ u "sample_1").
Proof.
  assert (Forall (fun line => (2 <= length line)%nat)
            (data_rows [[u "sample 1"; u "ACGT"]; [u "# note"]; [u "sample_1"; u "TTTT"]]))
    as H1 by (repeat constructor).
  assert (NoDup [u "sample_1"]) as H3 by apply NoDup_singleton.
  assert (u "sample_1" ∈ [u "sample_1"]) as H4 by left.
  split; [exact H1|]. split; [reflexivity|]. split; [exact H3|]. split; [exact H4|].
  exact (proj1 (loaders_report_first_repeated_name Utils.ascii_isalnum Loader.ascii_upper
                  [[u "sample 1"; u "ACGT"]; [u "# note"]; [u "sample_1"; u "TTTT"]]
                  [u "sample_1"] (u "sample_1") [] H1 eq_refl H3 H4)).
Defined.

(** ** utils.py *)

Lemma lstrip_spaces (ws s : str) :
  Forall (fun c => Utils.isspace c = true) ws -> Utils.lstrip (ws ++ s) = Utils.lstrip s.
Proof.
  induction 1 as [|c ws Hc _ IH]; [done|].
  cbn [app Utils.lstrip]. by rewrite Hc.
Qed.

Lemma lstrip_app (s t : str) :
  (Utils.lstrip s = [] /\ Utils.lstrip (s ++ t) = Utils.lstrip t)
  \/ Utils.lstrip (s ++ t) = Utils.lstrip s ++ t.
Proof.
  induction s as [|c s IH]; [by left|].
  cbn [app Utils.lstrip]. destruct (Utils.isspace c); [exact IH|by right].
Qed.

Lemma rstrip_spaces (s ws : str) :
  Forall (fun c => Utils.isspace c = true) ws -> Utils.rstrip (s ++ ws) = Utils.rstrip s.
Proof.
  intros Hws. unfold Utils.rstrip. rewrite reverse_app, lstrip_spaces; [done|].
  by apply Forall_reverse.
Qed.

Lemma strip_spaces (ws1 s ws2 : str) :
  Forall (fun c => Utils.isspace c = true) ws1 ->
  Forall (fun c => Utils.isspace c = true) ws2 ->
  Utils.strip (ws1 ++ s ++ ws2) = Utils.strip s.
Proof.
  intros H1 H2. unfold Utils.strip. rewrite (lstrip_spaces ws1 _ H1).
  destruct (lstrip_app s ws2) as [[Hs ->]| ->].
  - rewrite Hs. rewrite <- (app_nil_r ws2), (lstrip_spaces ws2 [] H2). done.
  - by apply rstrip_spaces.
Qed.

(** X5: white space around a name does not matter: for white space
    [ws1] and [ws2] (any characters that [str.isspace] accepts),
    [convert_to_filename(ws1 + s + ws2)] is [convert_to_filename(s)]. *)
Theorem convert_to_filename_surrounding_space
    (isalnum : N -> bool) (ws1 s ws2 : str) :
  Forall (fun c => Utils.isspace c = true) ws1 ->
  Forall (fun c => Utils.isspace c = true) ws2 ->
  Utils.convert_to_filename isalnum (ws1 ++ s ++ ws2)
  = Utils.convert_to_filename isalnum s.
Proof.
  intros H1 H2. unfold Utils.convert_to_filename. by rewrite strip_spaces.
Qed.

Lemma convert_to_filename_surrounding_space_witness :
  Forall (fun c => Utils.isspace c = true) [9%N; 32%N]
  /\ Forall (fun c => Utils.isspace c = true) [32%N; 10%N]
  /\ Utils.convert_to_filename Utils.ascii_isalnum
       ([9%N; 32%N] ++ u "my sample" ++ [32%N; 10%N])
     = Utils.convert_to_filename Utils.ascii_isalnum (u "my sample").
Proof.
  assert (Forall (fun c => Utils.isspace c = true) [9%N; 32%N]) as H1
    by (repeat constructor).
  assert (Forall (fun c => Utils.isspace c = true) [32%N; 10%N]) as H2
    by (repeat constructor).
  split; [exact H1|]. split; [exact H2|].
  exact (convert_to_filename_surrounding_space Utils.ascii_isalnum
           [9%N; 32%N] (u "my sample") [32%N; 10%N] H1 H2).
Defined.

(** ** runner.py: the transposon ends *)

Lemma check_tn_end_spec (tn_end : str) :
  check_tn_end tn_end = true <-> Forall (fun base => base ∈ u "ACGT") tn_end.
Proof.
  induction tn_end as [|base rest IH]; simpl.
  - split; [constructor|done].
  - case_bool_decide as Hb; simpl.
    + rewrite IH. split; [by constructor|]. by intros [_ ?]%Forall_cons.
    + split; [done|]. by intros [? _]%Forall_cons.
Qed.

(** X6: [set_tn_ends] raises [AttributeError] exactly when one of the two
    ends holds a character other than A, C, G, T (a lower-case letter or N
    for example); otherwise it stores both ends as given and
    [same_tn_ends] is true exactly when they are equal. *)
Theorem set_tn_ends_accepts_ACGT_only (tnl tnr : str) :
  (set_tn_ends tnl tnr = None
   <-> exists base, base ∈ tnl ++ tnr /\ base ∉ u "ACGT")
  /\ (forall ends,
        set_tn_ends tnl tnr = Some ends ->
        TnL ends = tnl /\ TnR ends = tnr
        /\ (same_tn_ends ends = true <-> tnl = tnr)).
Proof.
  unfold set_tn_ends. split.
  - destruct (check_tn_end tnl) eqn:Hl.
    + destruct (check_tn_end tnr) eqn:Hr.
      * split; [done|]. intros (base & Hin & Hbad). exfalso.
        apply check_tn_end_spec in Hl, Hr. rewrite Forall_forall in Hl, Hr.
        apply Hbad. apply elem_of_app in Hin as [Hin|Hin]; auto.
      * split; [|done]. intros _.
        assert (~ Forall (fun base => base ∈ u "ACGT") tnr) as Hn.
        { intros H%check_tn_end_spec. congruence. }
        apply not_Forall_Exists in Hn; [|apply _].
        apply Exists_exists in Hn as (base & Hin & Hbad).
        exists base. split; [|done]. apply elem_of_app. by right.
    + split; [|done]. intros _.
      assert (~ Forall (fun base => base ∈ u "ACGT") tnl) as Hn.
      { intros H%check_tn_end_spec. congruence. }
      apply not_Forall_Exists in Hn; [|apply _].
      apply Exists_exists in Hn as (base & Hin & Hbad).
      exists base. split; [|done]. apply elem_of_app. by left.
  - intros ends. destruct (check_tn_end tnl); [|done].
    destruct (check_tn_end tnr); [|done].
    intros [= <-]. simpl. split; [done|]. split; [done|].
    apply bool_decide_eq_true.
Qed.

(** ** The FASTQ records *)

Lemma split_at_newline (a a' r r' : str) :
  chr_newline ∉ a -> chr_newline ∉ a' ->
  a ++ chr_newline :: r = a' ++ chr_newline :: r' -> a = a' /\ r = r'.
Proof.
  revert a'. induction a as [|c a IH]; intros a' Ha Ha' Heq.
  - destruct a' as [|c' a']; simpl in Heq.
    + by injection Heq as ->.
    + injection Heq as <- _. exfalso. apply Ha'. by left.
  - destruct a' as [|c' a']; simpl in Heq.
    + injection Heq as -> _. exfalso. apply Ha. by left.
    + injection Heq as -> Heq.
      apply not_elem_of_cons in Ha as [_ Ha], Ha' as [_ Ha'].
      destruct (IH a' Ha Ha' Heq) as [-> ->]. done.
Qed.

Lemma fastq_record_app_inj (r1 r2 : Read) (t1 t2 : str) :
  newline_free r1 -> newline_free r2 ->
  fastq_record r1 ++ t1 = fastq_record r2 ++ t2 -> r1 = r2 /\ t1 = t2.
Proof.
  intros (Hn1 & Hs1 & Hq1) (Hn2 & Hs2 & Hq2). unfold fastq_record.
  rewrite <- !(assoc_L (++)). cbn [app]. intros [= Heq].
  apply split_at_newline in Heq as [Hname Heq]; [|done|done].
  apply split_at_newline in Heq as [Hseq Heq]; [|done|done].
  injection Heq as Heq.
  apply split_at_newline in Heq as [Hqual Heq]; [|done|done].
  split; [|done]. destruct r1, r2. simpl in *. by subst.
Qed.

(** X7: the text of the written records determines the reads: two lists
    of reads whose fields hold no line feed and that give the same text
    are the same list. *)
Theorem fastq_text_inj (reads1 reads2 : list Read) :
  Forall newline_free reads1 -> Forall newline_free reads2 ->
  fastq_text reads1 = fastq_text reads2 -> reads1 = reads2.
Proof.
  unfold fastq_text. revert reads2.
  induction reads1 as [|r1 reads1 IH]; intros reads2 H1 H2 Heq.
  - destruct reads2 as [|r2 reads2]; [done|]. simpl in Heq. discriminate Heq.
  - destruct reads2 as [|r2 reads2]; [simpl in Heq; discriminate Heq|].
    apply Forall_cons in H1 as [Hr1 H1], H2 as [Hr2 H2].
    simpl in Heq. apply fastq_record_app_inj in Heq as [-> Heq]; [|done|done].
    f_equal. by apply IH.
Qed.

Lemma fastq_text_inj_witness :
  let r := mk_read "r1" "ACGT" in
  Forall newline_free [r] /\ Forall newline_free [r]
  /\ fastq_text [r] = fastq_text [r] /\ [r] = [r].
Proof.
  assert (Forall newline_free [mk_read "r1" "ACGT"]) as H.
  { repeat constructor; vm_compute; intros Hin;
      repeat (apply elem_of_cons in Hin as [Hin|Hin]; [discriminate Hin|]);
      by apply elem_of_nil in Hin. }
  split; [exact H|]. split; [exact H|]. split; [reflexivity|].
  exact (fastq_text_inj [mk_read "r1" "ACGT"] [mk_read "r1" "ACGT"] H H eq_refl).
Defined.

(** One record, as the files hold it. *)
Example fastq_record_example :
  fastq_record (mk_read "r1" "ACGT")
  = u "@r1" ++ [chr_newline] ++ u "ACGT" ++ [chr_newline] ++ u "+" ++ [chr_newline]
    ++ u "IIII" ++ [chr_newline].
Proof. reflexivity. Qed.

(** ** The junction extractor: what the dictionary holds *)

(** The count stored for [(barcode, chrom_seq)] is the number of reads
    whose match is this pair; nothing is stored when there is none. *)
Lemma count_of_extract_exact (seqfile : list Read) (bc seg : str) :
  Extract.count_of (Extract.extract_chromosome_sequence seqfile) bc seg
  = let k := length (filter (fun r => Extract.search (sequence r) = Some (bc, seg))
                       seqfile) in
    if decide (k = 0%nat) then None else Some (Z.of_nat k).
Proof.
  induction seqfile as [|read seqfile IH] using rev_ind.
  - unfold Extract.count_of, Extract.extract_chromosome_sequence.
    cbn [foldl]. by rewrite lookup_empty.
  - rewrite extract_snoc, filter_app, length_app. cbn zeta in IH.
    unfold Extract.extract_read.
    destruct (Extract.search (sequence read)) as [[bc' seg']|] eqn:Hs.
    + destruct (decide ((bc', seg') = (bc, seg))) as [[= -> ->]|Hne].
      * rewrite count_of_insertion_same, IH.
        rewrite filter_cons_True by done. cbn [length filter].
        rewrite filter_nil. cbn [length].
        repeat case_decide; try lia; simpl; f_equal; lia.
      * rewrite count_of_insertion_other by congruence. rewrite IH.
        rewrite filter_cons_False by congruence. rewrite filter_nil. cbn [length].
        by rewrite Nat.add_0_r.
    + rewrite IH, filter_cons_False by congruence. rewrite filter_nil. cbn [length].
      by rewrite Nat.add_0_r.
Qed.

(** X8: the count stored for a barcode and a segment is the number of
    reads of the stream whose match is this barcode and this segment, and
    the pair is absent from the dictionary exactly when no read matches
    it. *)
Theorem extract_counts_matching_reads (seqfile : list Read) (bc seg : str) :
  default 0 (Extract.count_of (Extract.extract_chromosome_sequence seqfile) bc seg)
  = Z.of_nat (length (filter (fun r => Extract.search (sequence r) = Some (bc, seg))
                        seqfile))
  /\ (Extract.count_of (Extract.extract_chromosome_sequence seqfile) bc seg = None
      <-> filter (fun r => Extract.search (sequence r) = Some (bc, seg)) seqfile = []).
Proof.
  rewrite count_of_extract_exact. cbn zeta.
  destruct (filter _ seqfile) as [|r l]; simpl; [done|].
  split; [lia|]. split; done.
Qed.

(** X9: every key of the dictionary has the shape of the pattern: the
    barcode is four characters of ACGT, the segment is 16 or 17 characters,
    one of NACGT and then ACGT, and ends in TA. *)
Theorem extract_keys_well_formed (seqfile : list Read) (bc seg : str) (n : Z) :
  Extract.count_of (Extract.extract_chromosome_sequence seqfile) bc seg = Some n ->
  Extract.barcode_ok bc = true /\ Extract.segment_ok seg = true.
Proof.
  rewrite count_of_extract_exact. cbn zeta.
  destruct (filter _ seqfile) as [|r l] eqn:Hf; [done|]. intros _.
  assert (r ∈ filter (fun r => Extract.search (sequence r) = Some (bc, seg)) seqfile)
    as Hr by (rewrite Hf; left).
  apply list_elem_of_filter in Hr as [Hs _].
  apply search_Some in Hs as (? & ? & _). done.
Qed.

Lemma extract_keys_well_formed_witness :
  let r1 := mk_read "r1" "ACGTAAAAAAAAAAAAAATAACAGGTTG" in
  Extract.count_of (Extract.extract_chromosome_sequence [r1])
    (u "ACGT") (u "AAAAAAAAAAAAAATA") = Some 1
  /\ Extract.barcode_ok (u "ACGT") = true
  /\ Extract.segment_ok (u "AAAAAAAAAAAAAATA") = true.
Proof.
  assert (Extract.count_of
            (Extract.extract_chromosome_sequence
               [mk_read "r1" "ACGTAAAAAAAAAAAAAATAACAGGTTG"])
            (u "ACGT") (u "AAAAAAAAAAAAAATA") = Some 1) as H
    by (vm_compute; reflexivity).
  split; [exact H|].
  exact (extract_keys_well_formed [mk_read "r1" "ACGTAAAAAAAAAAAAAATAACAGGTTG"]
           (u "ACGT") (u "AAAAAAAAAAAAAATA") 1 H).
Defined.

(** X10: counting in parts: the count of a pair after [seqfile1 ++
    seqfile2] is the sum of its counts after [seqfile1] and after
    [seqfile2] (an absent pair counting 0). *)
Theorem extract_counts_add (seqfile1 seqfile2 : list Read) (bc seg : str) :
  default 0 (Extract.count_of
               (Extract.extract_chromosome_sequence (seqfile1 ++ seqfile2)) bc seg)
  = default 0 (Extract.count_of (Extract.extract_chromosome_sequence seqfile1) bc seg)
    + default 0 (Extract.count_of (Extract.extract_chromosome_sequence seqfile2) bc seg).
Proof.
  rewrite !count_of_extract_exact. cbn zeta. rewrite filter_app, length_app.
  repeat case_decide; simpl; lia.
Qed.

Lemma extract_inner_nonempty (seqfile : list Read) (bc : str) (inner : gmap str Z) :
  Extract.extract_chromosome_sequence seqfile !! bc = Some inner -> inner <> ∅.
Proof.
  revert inner. induction seqfile as [|read seqfile IH] using rev_ind; intros inner.
  - unfold Extract.extract_chromosome_sequence. cbn [foldl]. by rewrite lookup_empty.
  - rewrite extract_snoc. unfold Extract.extract_read.
    destruct (Extract.search (sequence read)) as [[bc' seg']|]; [|apply IH].
    unfold Extract.count_insertion.
    destruct (decide (bc' = bc)) as [->|Hne].
    + destruct (Extract.extract_chromosome_sequence seqfile !! bc) as [d|];
        [destruct (d !! seg')|]; rewrite lookup_insert_eq; intros [= <-];
        first [apply insert_non_empty | apply map_non_empty_singleton].
    + destruct (Extract.extract_chromosome_sequence seqfile !! bc') as [d|];
        [destruct (d !! seg')|]; rewrite lookup_insert_ne by done; apply IH.
Qed.

(** Two dictionaries of the extractor with the same counts are equal. *)
Lemma extract_ext (seqfile1 seqfile2 : list Read) :
  (forall bc seg,
      Extract.count_of (Extract.extract_chromosome_sequence seqfile1) bc seg
      = Extract.count_of (Extract.extract_chromosome_sequence seqfile2) bc seg) ->
  Extract.extract_chromosome_sequence seqfile1
  = Extract.extract_chromosome_sequence seqfile2.
Proof.
  intros Hcount. apply map_eq. intros bc.
  pose proof (extract_inner_nonempty seqfile1 bc) as Hne1.
  pose proof (extract_inner_nonempty seqfile2 bc) as Hne2.
  assert (forall seg,
            (Extract.extract_chromosome_sequence seqfile1 !! bc) ≫= (.!! seg)
            = (Extract.extract_chromosome_sequence seqfile2 !! bc) ≫= (.!! seg))
    as Hc by (intros seg; apply (Hcount bc seg)).
  destruct (Extract.extract_chromosome_sequence seqfile1 !! bc) as [i1|],
           (Extract.extract_chromosome_sequence seqfile2 !! bc) as [i2|];
    simpl in Hc.
  - f_equal. apply map_eq. exact Hc.
  - exfalso. apply (Hne1 i1 eq_refl). apply map_eq. intros seg.
    by rewrite Hc, lookup_empty.
  - exfalso. apply (Hne2 i2 eq_refl). apply map_eq. intros seg.
    by rewrite <- Hc, lookup_empty.
  - done.
Qed.

(** X11: the dictionary does not depend on the order of the reads: two
    streams that hold the same reads, in any order, give the same
    dictionary. *)
Theorem extract_order_independent (seqfile1 seqfile2 : list Read) :
  seqfile1 ≡ₚ seqfile2 ->
  Extract.extract_chromosome_sequence seqfile1
  = Extract.extract_chromosome_sequence seqfile2.
Proof.
  intros Hp. apply extract_ext. intros bc seg.
  rewrite !count_of_extract_exact. cbn zeta.
  assert (length (filter (fun r => Extract.search (sequence r) = Some (bc, seg)) seqfile1)
          = length (filter (fun r => Extract.search (sequence r) = Some (bc, seg))
                      seqfile2)) as -> by (by rewrite Hp).
  done.
Qed.

Lemma extract_order_independent_witness :
  let r1 := mk_read "r1" "ACGTAAAAAAAAAAAAAATAACAGGTTG" in
  let r2 := mk_read "r2" "TTTTNCCCCCCCCCCCCCTAACAGGTTG" in
  [r1; r2] ≡ₚ [r2; r1]
  /\ Extract.extract_chromosome_sequence [r1; r2]
     = Extract.extract_chromosome_sequence [r2; r1].
Proof.
  assert ([mk_read "r1" "ACGTAAAAAAAAAAAAAATAACAGGTTG";
           mk_read "r2" "TTTTNCCCCCCCCCCCCCTAACAGGTTG"]
          ≡ₚ [mk_read "r2" "TTTTNCCCCCCCCCCCCCTAACAGGTTG";
              mk_read "r1" "ACGTAAAAAAAAAAAAAATAACAGGTTG"]) as H
    by apply Permutation_swap.
  split; [exact H|].
  exact (extract_order_independent _ _ H).
Defined.

(** X12: reads without a match leave no trace: the dictionary of a stream
    is the dictionary of its accepted reads. *)
Theorem extract_ignores_rejected (seqfile : list Read) :
  Extract.extract_chromosome_sequence seqfile
  = Extract.extract_chromosome_sequence (List.filter Extract.accepted seqfile).
Proof.
  unfold Extract.extract_chromosome_sequence. generalize (∅ : gmap str (gmap str Z)).
  induction seqfile as [|read seqfile IH]; intros d; [done|].
  cbn [foldl List.filter]. destruct (Extract.accepted read) eqn:Ha.
  - cbn [foldl]. apply IH.
  - assert (Extract.extract_read d read = d) as ->; [|apply IH].
    unfold Extract.accepted in Ha. unfold Extract.extract_read.
    destruct (Extract.search (sequence read)) as [[bc seg]|]; [|done].
    apply bool_decide_eq_false in Ha. exfalso. apply Ha. by eexists.
Qed.

(** ** trim_fastq: what a kept read holds *)

Lemma find_from_cases (pat s : str) (i : Z) :
  Demultiplex.find_from pat s i = -1
  \/ exists pre post,
       s = pre ++ pat ++ post
       /\ Demultiplex.find_from pat s i = i + Z.of_nat (length pre).
Proof.
  revert i. induction s as [|c s IH]; intros i; rewrite find_from_unfold.
  - case_bool_decide as Hp; [|by left]. right. exists [], (drop (length pat) []).
    split; [|simpl; lia]. simpl. rewrite <- Hp at 1. by rewrite take_drop.
  - case_bool_decide as Hp.
    + right. exists [], (drop (length pat) (c :: s)).
      split; [|simpl; lia]. cbn [app]. rewrite <- Hp at 1. by rewrite take_drop.
    + destruct (IH (i + 1)) as [Hnone|(pre & post & -> & Hfound)]; [by left|].
      right. exists (c :: pre), post. split; [done|].
      rewrite Hfound. simpl length. lia.
Qed.

Lemma trim_read_Some (read t : Read) :
  Demultiplex.trim_read read = Some t ->
  exists bc body rest,
    sequence read = bc ++ (body ++ u "TA") ++ u "ACAGGTTG" ++ rest
    /\ length bc = 4%nat
    /\ sequence t = body ++ u "TA"
    /\ (length body = 14 \/ length body = 15)%nat
    /\ name t = name read
    /\ quality t = take (length (sequence t)) (drop 4 (quality read)).
Proof.
  unfold Demultiplex.trim_read, Demultiplex.chromosomeSeq, Demultiplex.find.
  destruct (find_from_cases (u "TAACAGGTTG") (sequence read) 0)
    as [Hnone|(pre & post & Hseq & Hfound)].
  { rewrite Hnone. done. }
  rewrite Hfound. unfold Demultiplex.bLen.
  destruct (Z.leb_spec 16 (0 + Z.of_nat (length pre) + 2 - 4)) as [Hlo|]; [|done].
  destruct (Z.ltb_spec (0 + Z.of_nat (length pre) + 2 - 4) 18) as [Hhi|]; [|done].
  simpl. intros [= <-]. cbn [name sequence quality].
  unfold Demultiplex.slice.
  assert ((Z.to_nat (0 + Z.of_nat (length pre) + 2 - 4 + 4) - Z.to_nat 4)%nat
          = (length pre - 2)%nat) as -> by lia.
  change (Z.to_nat 4) with 4%nat.
  exists (take 4 pre), (drop 4 pre), post.
  assert (length (drop 4 pre) = (length pre - 4)%nat) as Hbody by apply length_drop.
  assert (take (length pre - 2) (drop 4 (sequence read)) = drop 4 pre ++ u "TA") as Hseg.
  { rewrite Hseq, drop_app_le by lia.
    change (u "TAACAGGTTG") with (u "TA" ++ u "ACAGGTTG").
    rewrite <- (assoc_L (++) (u "TA")), (assoc_L (++) (drop 4 pre)).
    apply take_app_length'. rewrite length_app, Hbody.
    change (length (u "TA")) with 2%nat. lia. }
  split.
  { rewrite Hseq at 1. rewrite <- (take_drop 4 pre) at 1.
    change (u "TAACAGGTTG") with (u "TA" ++ u "ACAGGTTG").
    by rewrite <- !(assoc_L (++)). }
  split; [rewrite length_take; lia|].
  split; [exact Hseg|]. split; [lia|]. split; [done|].
  rewrite Hseg, length_app, Hbody. change (length (u "TA")) with 2%nat.
  f_equal. lia.
Qed.

(** X13: a read that [trim_fastq] keeps is cut to the segment between
    the four characters of the barcode and the transposon: its new
    sequence has 16 or 17 characters, ends in TA, stands at index 4 of the
    old sequence and is followed there by ACAGGTTG; the name is kept, and
    the quality is cut at the same indices, so it has the length of the new
    sequence when it had the length of the old one. *)
Theorem trim_read_keeps_segment (read t : Read) :
  Demultiplex.trim_read read = Some t ->
  name t = name read
  /\ (length (sequence t) = 16 \/ length (sequence t) = 17)%nat
  /\ (exists body, sequence t = body ++ u "TA")
  /\ (exists bc rest,
        length bc = 4%nat
        /\ sequence read = bc ++ sequence t ++ u "ACAGGTTG" ++ rest)
  /\ quality t = take (length (sequence t)) (drop 4 (quality read))
  /\ (length (quality read) = length (sequence read) ->
      length (quality t) = length (sequence t)).
Proof.
  intros (bc & body & rest & Hseq & Hbc & Ht & Hlen & Hname & Hq)%trim_read_Some.
  split; [done|].
  assert (length (sequence t) = (length body + 2)%nat) as Hl.
  { rewrite Ht, length_app. by change (length (u "TA")) with 2%nat. }
  split; [lia|]. split; [by exists body|].
  split; [exists bc, rest; by rewrite Ht|]. split; [done|].
  intros Hqs. rewrite Hq, length_take, length_drop, Hqs, Hseq.
  rewrite !length_app, Hbc. change (length (u "TA")) with 2%nat. lia.
Qed.

Lemma trim_read_keeps_segment_witness :
  let read := mk_read "r1" "ACGTAAAAAAAAAAAAAATAACAGGTTG" in
  let t := {| name := u "r1"; sequence := u "AAAAAAAAAAAAAATA";
              quality := u "IIIIIIIIIIIIIIII" |} in
  Demultiplex.trim_read read = Some t
  /\ name t = name read
  /\ (length (sequence t) = 16 \/ length (sequence t) = 17)%nat.
Proof.
  assert (Demultiplex.trim_read (mk_read "r1" "ACGTAAAAAAAAAAAAAATAACAGGTTG")
          = Some {| name := u "r1"; sequence := u "AAAAAAAAAAAAAATA";
                    quality := u "IIIIIIIIIIIIIIII" |}) as H
    by (vm_compute; reflexivity).
  split; [exact H|].
  destruct (trim_read_keeps_segment _ _ H) as (Hn & Hl & _).
  split; [exact Hn|exact Hl].
Defined.

(** X14: the two extractions agree where both accept: when the pattern of
    [extract_chromosome_sequence] matches the sequence of a read and
    [trim_fastq] keeps the read, the trimmed sequence is the segment of the
    match and the barcode of the match is the first four characters. *)
Theorem trim_and_search_agree (read t : Read) (bc seg : str) :
  Extract.search (sequence read) = Some (bc, seg) ->
  Demultiplex.trim_read read = Some t ->
  sequence t = seg /\ bc = slice_to 4 (sequence read).
Proof.
  intros (Hbc & Hseg & rest & Hseq)%search_Some
         (bc' & body & rest' & Hseq' & Hbc' & Ht & Hlen & _)%trim_read_Some.
  apply andb_true_iff in Hbc as [Hbc _]. apply bool_decide_eq_true in Hbc.
  apply andb_true_iff in Hseg as [Hchars Hlseg].
  rewrite orb_true_iff, !bool_decide_eq_true in Hlseg.
  rewrite Hseq in Hseq'.
  apply app_inj_1 in Hseq' as [<- Heq]; [|congruence].
  split.
  - rewrite Ht.
    apply segment_chars_split in Hchars as (f & b & -> & _ & _ & Hb).
    assert (length b = 13 \/ length b = 14)%nat as Hcase by lia.
    clear Hb Hlseg Hseq Hbc Hbc' Ht bc.
    rewrite <- !(assoc_L (++)) in Heq. rewrite u_TA, u_anchor in *.
    destruct Hlen as [Hl|Hl], Hcase as [Hl'|Hl'];
      explode body; explode b; by simplify_eq/=.
  - unfold slice_to. by rewrite Hseq, <- Hbc, take_app_length.
Qed.

Lemma trim_and_search_agree_witness :
  let read := mk_read "r1" "ACGTAAAAAAAAAAAAAATAACAGGTTG" in
  let t := {| name := u "r1"; sequence := u "AAAAAAAAAAAAAATA";
              quality := u "IIIIIIIIIIIIIIII" |} in
  Extract.search (sequence read) = Some (u "ACGT", u "AAAAAAAAAAAAAATA")
  /\ Demultiplex.trim_read read = Some t
  /\ sequence t = u "AAAAAAAAAAAAAATA"
  /\ u "ACGT" = slice_to 4 (sequence read).
Proof.
  assert (Extract.search (sequence (mk_read "r1" "ACGTAAAAAAAAAAAAAATAACAGGTTG"))
          = Some (u "ACGT", u "AAAAAAAAAAAAAATA")) as H1 by (vm_compute; reflexivity).
  assert (Demultiplex.trim_read (mk_read "r1" "ACGTAAAAAAAAAAAAAATAACAGGTTG")
          = Some {| name := u "r1"; sequence := u "AAAAAAAAAAAAAATA";
                    quality := u "IIIIIIIIIIIIIIII" |}) as H2
    by (vm_compute; reflexivity).
  split; [exact H1|]. split; [exact H2|].
  exact (trim_and_search_agree _ _ _ _ H1 H2).
Defined.

(** ** The classifier on any samples mapping *)

Lemma elem_of_file_of (sampleName : str) (r : Read) (w : list (str * Read)) :
  r ∈ Demultiplex.file_of sampleName w <-> (sampleName, r) ∈ w.
Proof.
  unfold Demultiplex.file_of. rewrite list_elem_of_fmap. split.
  - intros ([n r'] & -> & Hin). apply list_elem_of_In, List.filter_In in Hin as [Hin Hn].
    apply bool_decide_eq_true in Hn. simpl in Hn. subst n. by apply list_elem_of_In.
  - intros Hin. exists (sampleName, r). split; [done|].
    apply list_elem_of_In, List.filter_In. split; [by apply list_elem_of_In|].
    by apply bool_decide_eq_true.
Qed.

Lemma file_of_unknown (sampleName : str) (w : list (str * Read)) :
  (forall x, x ∈ w -> x.1 <> sampleName) -> Demultiplex.file_of sampleName w = [].
Proof.
  intros Hw. destruct (Demultiplex.file_of sampleName w) as [|r l] eqn:Hf; [done|].
  assert (r ∈ Demultiplex.file_of sampleName w) as Hr by (rewrite Hf; left).
  apply elem_of_file_of in Hr. by apply Hw in Hr.
Qed.

Lemma writeReads_names (bd : odict str) (dd : gmap str (list Read))
    (w w' : Demultiplex.World) :
  Demultiplex.writeReads dd bd w = Some w' ->
  (forall x, x ∈ Demultiplex.written w -> x.1 ∈ od_keys bd) ->
  forall x, x ∈ Demultiplex.written w' -> x.1 ∈ od_keys bd.
Proof.
  unfold Demultiplex.writeReads.
  destruct (foldl _ _ bd) as [res|] eqn:Hres; [|done]. simpl.
  intros [= <-] Hw x. simpl. apply write_buckets_Some in Hres as ->.
  intros [Hin|Hin]%elem_of_app; [by apply Hw|].
  apply list_elem_of_In, in_flat_map in Hin as (item & Hitem & Hx).
  apply list_elem_of_In, list_elem_of_fmap in Hx as (r & -> & _). simpl.
  unfold od_keys. apply list_elem_of_fmap. exists item. split; [done|].
  by apply list_elem_of_In.
Qed.

Lemma step_names (every : Z) (bd : odict str) (st st' : Demultiplex.State) read :
  Demultiplex.step every bd st read = Some st' ->
  (forall x, x ∈ Demultiplex.written (Demultiplex.world st) -> x.1 ∈ od_keys bd) ->
  forall x, x ∈ Demultiplex.written (Demultiplex.world st') -> x.1 ∈ od_keys bd.
Proof.
  unfold Demultiplex.step.
  destruct (Demultiplex.classify _ read) as [dd|]; [|done]. simpl.
  destruct (_ =? 0).
  - destruct (Demultiplex.writeReads dd bd _) as [w|] eqn:Hw; [|done]. simpl.
    intros [= <-] Hst. simpl. by apply (writeReads_names bd dd _ w Hw).
  - intros [= <-] Hst. done.
Qed.

Lemma loop_names (every : Z) (bd : odict str) (seqfile : list Read)
    (st st' : Demultiplex.State) :
  Demultiplex.loop every bd st seqfile = Some st' ->
  (forall x, x ∈ Demultiplex.written (Demultiplex.world st) -> x.1 ∈ od_keys bd) ->
  forall x, x ∈ Demultiplex.written (Demultiplex.world st') -> x.1 ∈ od_keys bd.
Proof.
  revert st. induction seqfile as [|read seqfile IH]; intros st.
  - simpl. by intros [= <-].
  - simpl. destruct (Demultiplex.step every bd st read) as [st1|] eqn:Hstep; [|done].
    simpl. intros Hloop Hst. apply (IH st1 Hloop).
    by apply (step_names every bd st st1 read Hstep).
Qed.

(** Every record is written to the file of a key of [barcodes_dict]. *)
Lemma run_names (every : Z) (seqfile : list Read) (samples_dict : odict SampleEntry)
    (st : Demultiplex.State) :
  Demultiplex.demultiplex_fastq_every every seqfile samples_dict = Some st ->
  forall x, x ∈ Demultiplex.written (Demultiplex.world st) ->
            x.1 ∈ od_keys (Demultiplex.build_barcodes_dict samples_dict).
Proof.
  unfold Demultiplex.demultiplex_fastq_every.
  destruct (Demultiplex.loop _ _ _ seqfile) as [st1|] eqn:Hloop; [|done]. simpl.
  destruct (Demultiplex.writeReads _ _ _) as [w|] eqn:Hw; [|done]. simpl.
  intros [= <-]. simpl. apply (writeReads_names _ _ _ w Hw).
  apply (loop_names _ _ _ _ st1 Hloop). simpl. by intros x ?%elem_of_nil.
Qed.

Lemma elem_of_keys_values (bd : odict str) (k : str) :
  k ∈ od_keys bd -> exists bc, (k, bc) ∈ bd.
Proof.
  unfold od_keys. intros ([k' bc] & -> & Hin)%list_elem_of_fmap. by exists bc.
Qed.

Lemma elem_of_values_keys (bd : odict str) (bc : str) :
  bc ∈ od_values bd -> exists k, (k, bc) ∈ bd.
Proof.
  unfold od_values. intros ([k bc'] & -> & Hin)%list_elem_of_fmap. by exists k.
Qed.

(** X15: for every samples mapping, whatever its names and barcodes,
    the run returns, every record written is a read of the stream and goes
    to the file of a sample or to [_other], and every read of the stream is
    written to at least one of these files. *)
Theorem demultiplex_writes_the_reads (seqfile : list Read)
    (samples_dict : odict SampleEntry) :
  exists st,
    Demultiplex.demultiplex_fastq seqfile samples_dict = Some st
    /\ (forall sampleName r,
          (sampleName, r) ∈ Demultiplex.written (Demultiplex.world st) ->
          r ∈ seqfile
          /\ sampleName ∈ od_keys (Demultiplex.build_barcodes_dict samples_dict))
    /\ (forall r,
          r ∈ seqfile ->
          exists sampleName,
            (sampleName, r) ∈ Demultiplex.written (Demultiplex.world st)).
Proof.
  destruct (demultiplex_run 1000000 seqfile samples_dict ltac:(lia))
    as (st & Hrun & _ & Hfiles & _).
  set (bd := Demultiplex.build_barcodes_dict samples_dict) in *.
  exists st. split; [done|]. split.
  - intros sampleName r Hin.
    pose proof (run_names _ _ _ _ Hrun (sampleName, r) Hin) as Hname.
    split; [|done]. apply elem_of_keys_values in Hname as [bc Hbc].
    apply elem_of_file_of in Hin. rewrite (Hfiles sampleName bc Hbc) in Hin.
    by apply list_elem_of_filter in Hin as [_ ?].
  - intros r Hr.
    destruct (elem_of_values_keys bd (Demultiplex.bucket_of bd r)) as [sampleName Hk].
    { apply bucket_of_in_values, barcodes_dict_other. }
    exists sampleName. apply elem_of_file_of. rewrite (Hfiles sampleName _ Hk).
    by apply list_elem_of_filter.
Qed.

(** X16: the flush threshold does not change the output: with any two
    positive thresholds, every output file holds the same reads in the same
    order. *)
Theorem demultiplex_threshold_independent (every1 every2 : Z)
    (seqfile : list Read) (samples_dict : odict SampleEntry) :
  0 < every1 -> 0 < every2 ->
  exists st1 st2,
    Demultiplex.demultiplex_fastq_every every1 seqfile samples_dict = Some st1
    /\ Demultiplex.demultiplex_fastq_every every2 seqfile samples_dict = Some st2
    /\ forall sampleName,
         Demultiplex.file_of sampleName (Demultiplex.written (Demultiplex.world st1))
         = Demultiplex.file_of sampleName (Demultiplex.written (Demultiplex.world st2)).
Proof.
  intros H1 H2.
  destruct (demultiplex_run every1 seqfile samples_dict H1)
    as (st1 & Hrun1 & _ & Hfiles1 & _).
  destruct (demultiplex_run every2 seqfile samples_dict H2)
    as (st2 & Hrun2 & _ & Hfiles2 & _).
  exists st1, st2. split; [done|]. split; [done|]. intros sampleName.
  destruct (decide (sampleName ∈ od_keys (Demultiplex.build_barcodes_dict samples_dict)))
    as [Hin|Hnot].
  - apply elem_of_keys_values in Hin as [bc Hbc].
    by rewrite (Hfiles1 _ _ Hbc), (Hfiles2 _ _ Hbc).
  - rewrite !file_of_unknown; [done| |].
    + intros x Hx <-. apply Hnot. by apply (run_names _ _ _ _ Hrun2).
    + intros x Hx <-. apply Hnot. by apply (run_names _ _ _ _ Hrun1).
Qed.

Lemma demultiplex_threshold_independent_witness :
  let samples := [(u "s1", {| entry_name := None; barcode := u "ACGT" |})] in
  let seqfile := [mk_read "a" "ACGTAA"; mk_read "b" "GGGGAA"; mk_read "c" "ACGTCC"] in
  0 < 1 /\ 0 < 2
  /\ exists st1 st2,
       Demultiplex.demultiplex_fastq_every 1 seqfile samples = Some st1
       /\ Demultiplex.demultiplex_fastq_every 2 seqfile samples = Some st2
       /\ Demultiplex.file_of (u "s1") (Demultiplex.written (Demultiplex.world st1))
          = Demultiplex.file_of (u "s1") (Demultiplex.written (Demultiplex.world st2)).
Proof.
  split; [lia|]. split; [lia|].
  destruct (demultiplex_threshold_independent 1 2
              [mk_read "a" "ACGTAA"; mk_read "b" "GGGGAA"; mk_read "c" "ACGTCC"]
              [(u "s1", {| entry_name := None; barcode := u "ACGT" |})]
              ltac:(lia) ltac:(lia)) as (st1 & st2 & Hr1 & Hr2 & Hf).
  exists st1, st2. split; [exact Hr1|]. split; [exact Hr2|]. apply Hf.
Defined.

(** X17: an empty stream, with any samples mapping: the run returns, no
    record is written, and [writeReads] is called once, with empty
    buckets. *)
Theorem demultiplex_empty_stream (samples_dict : odict SampleEntry) :
  exists st,
    Demultiplex.demultiplex_fastq [] samples_dict = Some st
    /\ Demultiplex.nreads st = 0
    /\ Demultiplex.written (Demultiplex.world st) = []
    /\ Demultiplex.buffered <$> Demultiplex.flushes (Demultiplex.world st) = [0].
Proof.
  destruct (demultiplex_run 1000000 [] samples_dict ltac:(lia))
    as (st & Hrun & Hn & Hfiles & Hfl).
  exists st. split; [done|]. split; [done|]. split; [|done].
  apply elem_of_nil_inv. intros [sampleName r] Hin.
  pose proof (run_names _ _ _ _ Hrun (sampleName, r) Hin) as Hname.
  apply elem_of_keys_values in Hname as [bc Hbc].
  apply elem_of_file_of in Hin. rewrite (Hfiles sampleName bc Hbc) in Hin.
  by apply elem_of_nil in Hin.
Qed.

(** X18: a read shorter than a barcode goes to [_other]: when every
    barcode of the mapping has four characters, every read of the stream
    whose sequence has fewer than four characters is written to the file
    [_other]. *)
Theorem demultiplex_short_reads_to_other (seqfile : list Read)
    (samples_dict : odict SampleEntry) :
  NoDup (od_keys samples_dict) ->
  Forall (fun e => length (barcode e) = 4%nat) (od_values samples_dict) ->
  exists st,
    Demultiplex.demultiplex_fastq seqfile samples_dict = Some st
    /\ forall r,
         r ∈ seqfile -> (length (sequence r) < 4)%nat ->
         (Demultiplex.other, r) ∈ Demultiplex.written (Demultiplex.world st).
Proof.
  intros Hnames Hlen.
  destruct (demultiplex_run 1000000 seqfile samples_dict ltac:(lia))
    as (st & Hrun & _ & Hfiles & _).
  set (bd := Demultiplex.build_barcodes_dict samples_dict) in *.
  exists st. split; [done|]. intros r Hr Hshort.
  apply elem_of_file_of.
  rewrite (Hfiles Demultiplex.other Demultiplex.other).
  - apply list_elem_of_filter. split; [|done].
    unfold Demultiplex.bucket_of. case_bool_decide as Hv; [|done]. exfalso.
    apply elem_of_values_keys in Hv as [k Hk].
    unfold bd in Hk.
    apply (barcodes_dict_elem samples_dict _ _ Hnames) in Hk
      as [[_ Ho]|(_ & e & Hin & He)].
    + by apply slice_not_other in Ho.
    + rewrite Forall_forall in Hlen.
      assert (length (barcode e) = 4%nat) as Hl.
      { apply Hlen. unfold od_values. apply list_elem_of_fmap. by exists (k, e). }
      rewrite <- He in Hl. unfold slice_to in Hl. rewrite length_take in Hl. lia.
  - apply barcodes_dict_elem; [done|]. by left.
Qed.

Lemma demultiplex_short_reads_to_other_witness :
  let samples := [(u "s1", {| entry_name := None; barcode := u "ACGT" |})] in
  let short := mk_read "e" "AC" in
  NoDup (od_keys samples)
  /\ Forall (fun e => length (barcode e) = 4%nat) (od_values samples)
  /\ exists st,
       Demultiplex.demultiplex_fastq [mk_read "a" "ACGTAA"; short] samples = Some st
       /\ (Demultiplex.other, short) ∈ Demultiplex.written (Demultiplex.world st).
Proof.
  assert (NoDup (od_keys [(u "s1", {| entry_name := None; barcode := u "ACGT" |})]))
    as H1 by (apply (bool_decide_unpack _); vm_compute; exact I).
  assert (Forall (fun e => length (barcode e) = 4%nat)
            (od_values [(u "s1", {| entry_name := None; barcode := u "ACGT" |})]))
    as H2 by (repeat constructor).
  split; [exact H1|]. split; [exact H2|].
  destruct (demultiplex_short_reads_to_other
              [mk_read "a" "ACGTAA"; mk_read "e" "AC"]
              [(u "s1", {| entry_name := None; barcode := u "ACGT" |})] H1 H2)
    as (st & Hrun & Hshort).
  exists st. split; [exact Hrun|].
  apply Hshort; [right; left|vm_compute; lia].
Defined.

(** X19: for every samples mapping, the file of each key of
    [barcodes_dict] holds, in input order, the reads whose bucket is the
    barcode stored under that key: the first four characters of the read
    when they are one of the stored barcodes, [_other] otherwise. *)
Theorem demultiplex_files_by_bucket (seqfile : list Read)
    (samples_dict : odict SampleEntry) :
  let bd := Demultiplex.build_barcodes_dict samples_dict in
  exists st,
    Demultiplex.demultiplex_fastq seqfile samples_dict = Some st
    /\ forall sampleName bc,
         (sampleName, bc) ∈ bd ->
         Demultiplex.file_of sampleName (Demultiplex.written (Demultiplex.world st))
         = filter (fun r => Demultiplex.bucket_of bd r = bc) seqfile.
Proof.
  intros bd.
  destruct (demultiplex_run 1000000 seqfile samples_dict ltac:(lia))
    as (st & Hrun & _ & Hfiles & _).
  by exists st.
Qed.

(** ** Short rows and short reads *)

Section LoaderRows.

Variable isalnum : N -> bool.
Variable upper : str -> str.

Lemma sample_prep_rows_app (rows1 rows2 : list (list str)) (d0 : odict SampleEntry) :
  Loader.sample_prep_rows isalnum upper (rows1 ++ rows2) d0
  = match Loader.sample_prep_rows isalnum upper rows1 d0 with
    | Returned d => Loader.sample_prep_rows isalnum upper rows2 d
    | Exited code message => Exited code message
    | Raised e => Raised e
    end.
Proof.
  revert d0. induction rows1 as [|line rows1 IH]; intros d0; [done|].
  cbn [app Loader.sample_prep_rows].
  destruct (line !! 0%nat) as [col0|]; [|done].
  destruct (startswith_chr chr_hash col0); [apply IH|].
  destruct (line !! 1%nat) as [col1|]; [|done].
  destruct (od_mem _ d0); [done|]. destruct (py_in _ _); [done|]. apply IH.
Qed.

(** X20: a row that is not a comment and has fewer than two columns (a
    blank line for example) makes both loaders raise [IndexError], when the
    rows before it load. *)
Theorem loaders_raise_on_short_row (rows1 : list (list str)) (line : list str)
    (rows2 : list (list str)) :
  Forall (fun line => (2 <= length line)%nat) (data_rows rows1) ->
  NoDup (od_keys (row_entry isalnum upper <$> data_rows rows1)) ->
  is_comment line = false ->
  (length line < 2)%nat ->
  Loader.sample_prep isalnum upper (rows1 ++ line :: rows2) = Raised IndexError
  /\ Loader.tab_delimited_samples_to_dict isalnum upper (rows1 ++ line :: rows2)
     = Raised IndexError.
Proof.
  intros Hall Hnd Hc Hlen.
  assert (Loader.sample_prep isalnum upper (rows1 ++ line :: rows2) = Raised IndexError)
    as Hraise.
  { unfold Loader.sample_prep. rewrite sample_prep_rows_app.
    assert (Loader.sample_prep_rows isalnum upper rows1 []
            = Returned (row_entry isalnum upper <$> data_rows rows1)) as ->.
    { apply sample_prep_rows_returned; [apply NoDup_nil_2|]. done. }
    cbn [Loader.sample_prep_rows]. unfold is_comment in Hc.
    destruct (line !! 0%nat) as [col0|]; [|done]. rewrite Hc.
    destruct (line !! 1%nat) as [col1|] eqn:H1; [|done].
    apply lookup_lt_Some in H1. lia. }
  split; [done|].
  pose proof (loaders_rows_agree isalnum upper (rows1 ++ line :: rows2) []) as Hagree.
  unfold Loader.sample_prep in Hraise. by rewrite Hraise in Hagree.
Qed.

End LoaderRows.

Lemma loaders_raise_on_short_row_witness :
  let rows1 := [[u "sample1"; u "ACGT"]] in
  Forall (fun line => (2 <= length line)%nat) (data_rows rows1)
  /\ NoDup (od_keys (row_entry Utils.ascii_isalnum Loader.ascii_upper <$> data_rows rows1))
  /\ is_comment [] = false
  /\ (length (@nil str) < 2)%nat
  /\ Loader.sample_prep Utils.ascii_isalnum Loader.ascii_upper
       (rows1 ++ [] :: [[u "sample2"; u "TTTT"]]) = Raised IndexError.
Proof.
  assert (Forall (fun line => (2 <= length line)%nat)
            (data_rows [[u "sample1"; u "ACGT"]])) as H1 by (repeat constructor).
  assert (NoDup (od_keys (row_entry Utils.ascii_isalnum Loader.ascii_upper
                            <$> data_rows [[u "sample1"; u "ACGT"]]))) as H2
    by (apply (bool_decide_unpack _); vm_compute; exact I).
  assert (length (@nil str) < 2)%nat as H4 by (simpl; lia).
  split; [exact H1|]. split; [exact H2|]. split; [reflexivity|]. split; [exact H4|].
  exact (proj1 (loaders_raise_on_short_row Utils.ascii_isalnum Loader.ascii_upper
                  [[u "sample1"; u "ACGT"]] [] [[u "sample2"; u "TTTT"]]
                  H1 H2 eq_refl H4)).
Defined.

(** X21: no read of fewer than 28 characters (4 of the barcode, 16 of
    the shortest segment, 8 of the transposon) is accepted: [trim_fastq]
    drops it and [extract_chromosome_sequence] leaves its dictionary as it
    is; neither raises. *)
Theorem short_reads_are_rejected (d : gmap str (gmap str Z)) (read : Read) :
  (length (sequence read) < 28)%nat ->
  Demultiplex.trim_read read = None
  /\ Extract.accepted read = false
  /\ Extract.extract_read d read = d.
Proof.
  intros Hshort. split; [|].
  - destruct (Demultiplex.trim_read read) as [t|] eqn:Ht; [exfalso|done].
    apply trim_read_Some in Ht as (bc & body & rest & Hseq & Hbc & _ & Hlen & _).
    rewrite Hseq, !length_app, Hbc in Hshort.
    change (length (u "TA")) with 2%nat in Hshort.
    change (length (u "ACAGGTTG")) with 8%nat in Hshort. lia.
  - assert (Extract.search (sequence read) = None) as Hs.
    { destruct (Extract.search (sequence read)) as [[bc seg]|] eqn:Hs; [exfalso|done].
      apply search_Some in Hs as (Hbc & Hseg & rest & Hseq).
      apply andb_true_iff in Hbc as [Hbc _]. apply bool_decide_eq_true in Hbc.
      apply andb_true_iff in Hseg as [_ Hseg].
      rewrite orb_true_iff, !bool_decide_eq_true in Hseg.
      rewrite Hseq, !length_app, Hbc in Hshort.
      change (length (u "ACAGGTTG")) with 8%nat in Hshort. lia. }
    unfold Extract.accepted, Extract.extract_read. rewrite Hs.
    split; [|done]. apply bool_decide_false. by intros [? ?].
Qed.

Lemma short_reads_are_rejected_witness :
  let read := mk_read "r1" "ACGTAAAAAAAAAAAAATAACAGGTTG" in
  (length (sequence read) < 28)%nat
  /\ Demultiplex.trim_read read = None
  /\ Extract.accepted read = false
  /\ Extract.extract_read ∅ read = ∅.
Proof.
  assert (length (sequence (mk_read "r1" "ACGTAAAAAAAAAAAAATAACAGGTTG")) < 28)%nat
    as H by (vm_compute; lia).
  split; [exact H|].
  exact (short_reads_are_rejected ∅ (mk_read "r1" "ACGTAAAAAAAAAAAAATAACAGGTTG") H).
Defined.
